(** * Tunnel-route resource handlers of the Cloudflare Terraform provider

    Shallow embedding of
    [internal/provider/resource_cloudflare_tunnel_route.go]: the five
    handlers Read, Create, Update, Delete and Import, written in a small
    state-and-panic monad over the resource record [d] and the remote
    service reached through the [cloudflare.API] client.  *)

From Stdlib Require Import String Ascii List Bool Arith Lia.
From stdpp Require Import gmap strings list fin_maps.

Local Open Scope string_scope.

(** ** Go runtime: dynamic values, errors, panics, [strings.SplitN] *)

(** A Go [interface{}] as returned by [d.Get]. *)
Inductive value : Type :=
| VNil
| VString (s : string)
| VBool (b : bool)
| VInt (n : Z).

(** Go [error] values.  An error built by [fmt.Errorf] is kept as its format
    string and operands, each operand tagged with the verb that consumes it
    ([%s], [%q], [%w]); [errors.New] keeps its text. *)
Inductive error : Type :=
| Errorf (format : string) (args : list fmt_arg)
| ErrorsNew (text : string)
| RemoteError (text : string)
with fmt_arg : Type :=
| ArgS (s : string)
| ArgQ (s : string)
| ArgW (e : error).

(** [errors.Unwrap]: only an [Errorf] with a [%w] operand wraps a cause. *)
Fixpoint first_wrapped (args : list fmt_arg) : option error :=
  match args with
  | [] => None
  | ArgW e :: _ => Some e
  | _ :: rest => first_wrapped rest
  end.

Definition Unwrap (e : error) : option error :=
  match e with
  | Errorf _ args => first_wrapped args
  | ErrorsNew _ => None
  | RemoteError _ => None
  end.

(** Run-time panics the handlers can raise. *)
Inductive panic : Type :=
| PanicTypeAssertion (v : value)
| PanicIndexOutOfRange (i len : nat).

(** The double-quote character, for format strings that contain it. *)
Definition dq : string := String (ascii_of_nat 34) EmptyString.

(** [s[:m]] and [s[m+1:]] around the first occurrence of the one-byte
    separator [sep], or [None] when [strings.Index] is negative. *)
Fixpoint cut (sep : ascii) (s : string) : option (string * string) :=
  match s with
  | EmptyString => None
  | String c rest =>
      if Ascii.eqb c sep then Some (EmptyString, rest)
      else match cut sep rest with
           | Some (before, after) => Some (String c before, after)
           | None => None
           end
  end.

(** [strings.SplitN(s, sep, n)] for a one-byte separator and [n >= 0]: at
    most [n] pieces, the last one being the unsplit remainder. *)
Fixpoint SplitN (s : string) (sep : ascii) (n : nat) : list string :=
  match n with
  | 0 => []
  | S n' =>
      match n' with
      | 0 => [s]
      | S _ =>
          match cut sep s with
          | None => [s]
          | Some (before, after) => before :: SplitN after sep n'
          end
      end
  end.

(** [strings.Count(s, sep)] for a one-byte separator. *)
Fixpoint Count (s : string) (sep : ascii) : nat :=
  match s with
  | EmptyString => 0
  | String c rest => (if Ascii.eqb c sep then 1 else 0) + Count rest sep
  end.

(** Number of slash-delimited segments of an identifier. *)
Definition segments (id : string) : nat := S (Count id "/"%char).

(** [fmt.Sprintf("%s/%s", a, b)]. *)
Definition slash_join (a b : string) : string := a +:+ "/" +:+ b.

(** ** The [cloudflare-go] structures the handlers use *)

Module TunnelRoute.
Record t : Type := Build {
  Network : string;
  TunnelID : string;
  Comment : string;
  VirtualNetworkID : string
}.
End TunnelRoute.

Module TunnelRoutesListParams.
Record t : Type := Build {
  AccountID : string;
  IsDeleted : option bool;
  NetworkSubset : string;
  NetworkSuperset : string;
  VirtualNetworkID : string
}.
End TunnelRoutesListParams.

Module TunnelRoutesCreateParams.
Record t : Type := Build {
  AccountID : string;
  TunnelID : string;
  Network : string;
  Comment : string;
  VirtualNetworkID : string
}.
Definition with_Comment (c : string) (p : t) : t :=
  Build (AccountID p) (TunnelID p) (Network p) c (VirtualNetworkID p).
End TunnelRoutesCreateParams.

Module TunnelRoutesUpdateParams.
Record t : Type := Build {
  AccountID : string;
  TunnelID : string;
  Network : string;
  Comment : string;
  VirtualNetworkID : string
}.
Definition with_Comment (c : string) (p : t) : t :=
  Build (AccountID p) (TunnelID p) (Network p) c (VirtualNetworkID p).
End TunnelRoutesUpdateParams.

Module TunnelRoutesDeleteParams.
Record t : Type := Build {
  AccountID : string;
  Network : string;
  VirtualNetworkID : string
}.
End TunnelRoutesDeleteParams.

(** A Go [(T, error)] result. *)
Inductive result (A : Type) : Type :=
| Ok (a : A)
| Err (e : error).
Arguments Ok {A} a.
Arguments Err {A} e.

(** The remote service behind [*cloudflare.API]: each call may change the
    remote state of type [Remote] and returns a result. *)
Record API (Remote : Type) : Type := {
  ListTunnelRoutes :
    TunnelRoutesListParams.t -> Remote -> Remote * result (list TunnelRoute.t);
  CreateTunnelRoute :
    TunnelRoutesCreateParams.t -> Remote -> Remote * result TunnelRoute.t;
  UpdateTunnelRoute :
    TunnelRoutesUpdateParams.t -> Remote -> Remote * result TunnelRoute.t;
  DeleteTunnelRoute :
    TunnelRoutesDeleteParams.t -> Remote -> Remote * option error
}.
Arguments ListTunnelRoutes {Remote} _ _ _.
Arguments CreateTunnelRoute {Remote} _ _ _.
Arguments UpdateTunnelRoute {Remote} _ _ _.
Arguments DeleteTunnelRoute {Remote} _ _ _.

(** The remote calls a handler issued, oldest first. *)
Inductive Call : Type :=
| CallList (p : TunnelRoutesListParams.t)
| CallCreate (p : TunnelRoutesCreateParams.t)
| CallUpdate (p : TunnelRoutesUpdateParams.t)
| CallDelete (p : TunnelRoutesDeleteParams.t).

(** ** [schema.ResourceData] and [diag.Diagnostics] *)

Inductive ValueType : Type := TypeString | TypeBool | TypeInt.

(** Modelled from the spec: [resourceCloudflareTunnelRouteSchema] is not in
    the source file; section 3 of the specification lists the five fields of
    the entity, all of them strings. *)
Definition resourceCloudflareTunnelRouteSchema (key : string) : option ValueType :=
  if (key =? "account_id") || (key =? "tunnel_id") || (key =? "network")
     || (key =? "comment") || (key =? "virtual_network_id")
  then Some TypeString else None.

Definition zero_value (ty : option ValueType) : value :=
  match ty with
  | Some TypeString => VString EmptyString
  | Some TypeBool => VBool false
  | Some TypeInt => VInt 0
  | None => VNil
  end.

(** The record the framework hands to every handler: the identifier and the
    fields written so far. *)
Record ResourceData : Type := {
  Id : string;
  attrs : gmap string value
}.

(** [d.Get(key)]: the stored value, or the zero value of the field's type. *)
Definition Get (d : ResourceData) (key : string) : value :=
  match attrs d !! key with
  | Some v => v
  | None => zero_value (resourceCloudflareTunnelRouteSchema key)
  end.

(** [d.Set(key, s)] with a string (its error result is dropped by every
    caller) and [d.SetId(s)]. *)
Definition SetString (key s : string) (d : ResourceData) : ResourceData :=
  {| Id := Id d; attrs := <[key := VString s]> (attrs d) |}.

Definition SetId (s : string) (d : ResourceData) : ResourceData :=
  {| Id := s; attrs := attrs d |}.

(** [diag.Diagnostics]: [nil] is the empty list; [diag.FromErr] makes the
    one-element list. *)
Definition Diagnostics : Type := list error.
Definition FromErr (e : error) : Diagnostics := [e].

(** ** The handler monad *)

Section Handlers.
Context {Remote : Type}.

(** What a handler runs on: the record [d], the remote state and the log of
    remote calls. *)
Record World : Type := {
  data : ResourceData;
  remote : Remote;
  calls : list Call
}.

Inductive Res (A : Type) : Type :=
| Returned (a : A) (w : World)
| Panicked (p : panic) (w : World).

Definition M (A : Type) : Type := World -> Res A.

Definition ret {A} (a : A) : M A := fun w => Returned A a w.

Definition bind {A B} (m : M A) (k : A -> M B) : M B :=
  fun w =>
    match m w with
    | Returned _ a w' => k a w'
    | Panicked _ p w' => Panicked B p w'
    end.

Definition throw {A} (p : panic) : M A := fun w => Panicked A p w.

End Handlers.

Arguments World : clear implicits.
Arguments Res : clear implicits.
Arguments M : clear implicits.
Arguments Returned {Remote A} a w.
Arguments Panicked {Remote A} p w.

Notation "'let!' x ':=' m 'in' k" := (bind m (fun x => k))
  (at level 10, x name, m at level 100, k at level 200).
Notation "'do!' m 'in' k" := (bind m (fun _ => k))
  (at level 10, m at level 100, k at level 200).

(** ** The handlers

    Each handler receives [ctx], the record [d] and [meta].  [meta] is the
    client (asserted to be a [cloudflare.API] pointer), here the section
    variable [client];
    [ctx] is only passed on to the remote calls and to the logger, and the
    [tflog.Info] line of Read writes nothing the handlers read back, so both
    are left out. *)

Section Provider.
Context {Remote : Type}.
Variable client : API Remote.

Local Abbreviation M := (M Remote).

(** Primitive actions on the record [d]. *)
Definition d_Get (key : string) : M value :=
  fun w => Returned (Get (data w) key) w.

Definition d_Id : M string :=
  fun w => Returned (Id (data w)) w.

Definition d_Set (key s : string) : M unit :=
  fun w => Returned tt
    {| data := SetString key s (data w); remote := remote w; calls := calls w |}.

Definition d_SetId (s : string) : M unit :=
  fun w => Returned tt
    {| data := SetId s (data w); remote := remote w; calls := calls w |}.

(** The type assertion [v.(string)] without the comma-ok form. *)
Definition as_string (v : value) : M string :=
  match v with
  | VString s => ret s
  | _ => throw (PanicTypeAssertion v)
  end.

(** [d.Get(key).(string)]. *)
Definition get_string (key : string) : M string :=
  let! v := d_Get key in as_string v.

(** Slice indexing [l[i]], which panics out of range. *)
Definition index {A} (l : list A) (i : nat) : M A :=
  match l !! i with
  | Some x => ret x
  | None => throw (PanicIndexOutOfRange i (length l))
  end.

(** One remote call: run it on the remote state and log it. *)
Definition remote_call {P A} (log : P -> Call)
    (f : P -> Remote -> Remote * A) (p : P) : M A :=
  fun w =>
    let (r, a) := f p (remote w) in
    Returned a {| data := data w; remote := r; calls := calls w ++ [log p] |}.

Definition resourceCloudflareTunnelRouteRead : M Diagnostics :=
  let! accountID := get_string "account_id" in
  let! network := get_string "network" in
  let! virtualNetworkID := get_string "virtual_network_id" in
  let resource :=
    {| TunnelRoutesListParams.AccountID := accountID;
       TunnelRoutesListParams.IsDeleted := Some false;
       TunnelRoutesListParams.NetworkSubset := network;
       TunnelRoutesListParams.NetworkSuperset := network;
       TunnelRoutesListParams.VirtualNetworkID := virtualNetworkID |} in
  let! listed := remote_call CallList (ListTunnelRoutes client) resource in
  match listed with
  | Err err =>
      ret (FromErr (Errorf "failed to fetch Tunnel Route: %w" [ArgW err]))
  | Ok tunnelRoutes =>
      if (length tunnelRoutes <? 1)%nat then
        do! d_SetId EmptyString in
        ret []
      else
        let! tunnelRoute := index tunnelRoutes 0 in
        do! d_Set "tunnel_id" (TunnelRoute.TunnelID tunnelRoute) in
        do! d_Set "network" (TunnelRoute.Network tunnelRoute) in
        do! (if (0 <? String.length (TunnelRoute.Comment tunnelRoute))%nat
             then d_Set "comment" (TunnelRoute.Comment tunnelRoute)
             else ret tt) in
        do! (if negb (virtualNetworkID =? EmptyString)
             then d_Set "virtual_network_id"
                    (TunnelRoute.VirtualNetworkID tunnelRoute)
             else ret tt) in
        ret []
  end.

Definition resourceCloudflareTunnelRouteCreate : M Diagnostics :=
  let! virtualNetworkID := get_string "virtual_network_id" in
  let! accountID := get_string "account_id" in
  let! tunnelID := get_string "tunnel_id" in
  let! network := get_string "network" in
  let resource :=
    {| TunnelRoutesCreateParams.AccountID := accountID;
       TunnelRoutesCreateParams.TunnelID := tunnelID;
       TunnelRoutesCreateParams.Network := network;
       TunnelRoutesCreateParams.Comment := EmptyString;
       TunnelRoutesCreateParams.VirtualNetworkID := virtualNetworkID |} in
  let! c := d_Get "comment" in
  let resource :=
    match c with
    | VString comment => TunnelRoutesCreateParams.with_Comment comment resource
    | _ => resource
    end in
  let! created := remote_call CallCreate (CreateTunnelRoute client) resource in
  match created with
  | Err err =>
      let! n := get_string "network" in
      ret (FromErr (Errorf "error creating Tunnel Route for Network %q: %w"
                      [ArgQ n; ArgW err]))
  | Ok newTunnelRoute =>
      do! (if negb (virtualNetworkID =? EmptyString)
           then d_SetId (slash_join (TunnelRoute.Network newTunnelRoute)
                           virtualNetworkID)
           else d_SetId (TunnelRoute.Network newTunnelRoute)) in
      resourceCloudflareTunnelRouteRead
  end.

Definition resourceCloudflareTunnelRouteUpdate : M Diagnostics :=
  let! accountID := get_string "account_id" in
  let! tunnelID := get_string "tunnel_id" in
  let! network := get_string "network" in
  let! virtualNetworkID := get_string "virtual_network_id" in
  let resource :=
    {| TunnelRoutesUpdateParams.AccountID := accountID;
       TunnelRoutesUpdateParams.TunnelID := tunnelID;
       TunnelRoutesUpdateParams.Network := network;
       TunnelRoutesUpdateParams.Comment := EmptyString;
       TunnelRoutesUpdateParams.VirtualNetworkID := virtualNetworkID |} in
  let! c := d_Get "comment" in
  let resource :=
    match c with
    | VString comment => TunnelRoutesUpdateParams.with_Comment comment resource
    | _ => resource
    end in
  let! updated := remote_call CallUpdate (UpdateTunnelRoute client) resource in
  match updated with
  | Err err =>
      let! n := get_string "network" in
      ret (FromErr (Errorf "error updating Tunnel Route for Network %q: %w"
                      [ArgQ n; ArgW err]))
  | Ok _ => resourceCloudflareTunnelRouteRead
  end.

Definition resourceCloudflareTunnelRouteDelete : M Diagnostics :=
  let! network := get_string "network" in
  let! accountID := get_string "account_id" in
  let! virtualNetworkID := get_string "virtual_network_id" in
  let resource :=
    {| TunnelRoutesDeleteParams.AccountID := accountID;
       TunnelRoutesDeleteParams.Network := network;
       TunnelRoutesDeleteParams.VirtualNetworkID := virtualNetworkID |} in
  let! deleted := remote_call CallDelete (DeleteTunnelRoute client) resource in
  match deleted with
  | Some err =>
      ret (FromErr (Errorf "error deleting Tunnel Route for Network %q: %w"
                      [ArgQ network; ArgW err]))
  | None => ret []
  end.

(** The format of the error for a malformed import identifier. *)
Definition invalid_id_format : string :=
  "invalid id (%q) specified, should be in format "
  +:+ dq +:+ "accountID/network" +:+ dq +:+ " or "
  +:+ dq +:+ "accountID/network/virtual_network_id" +:+ dq.

Definition read_state_failure : string := "failed to read Tunnel Route state".

(** The importer returns [([]*schema.ResourceData, error)]; the slice holds
    the record [d] itself. *)
Definition resourceCloudflareTunnelRouteImport
  : M (list ResourceData * option error) :=
  let! id := d_Id in
  let attributes := SplitN id "/"%char 4 in
  if negb (length attributes =? 3)%nat && negb (length attributes =? 4)%nat then
    let! id' := d_Id in
    ret ([], Some (Errorf invalid_id_format [ArgQ id']))
  else
    let! a0 := index attributes 0 in
    let! a1 := index attributes 1 in
    let! a2 := index attributes 2 in
    let accountID := a0 in
    let network := slash_join a1 a2 in
    do! (if (length attributes =? 4)%nat then
           let! a4 := index attributes 4 in
           do! d_SetId (slash_join network a4) in
           d_Set "virtual_network_id" accountID
         else d_SetId network) in
    do! d_Set "account_id" accountID in
    do! d_Set "network" network in
    let! err := resourceCloudflareTunnelRouteRead in
    match err with
    | _ :: _ => ret ([], Some (ErrorsNew read_state_failure))
    | [] => fun w => Returned ([data w], None) w
    end.

End Provider.

(** ** Vocabulary for the statements *)

(** The query of lines 34-40 for an account, a network and a virtual
    network. *)
Definition listQuery (accountID network virtualNetworkID : string)
  : TunnelRoutesListParams.t :=
  {| TunnelRoutesListParams.AccountID := accountID;
     TunnelRoutesListParams.IsDeleted := Some false;
     TunnelRoutesListParams.NetworkSubset := network;
     TunnelRoutesListParams.NetworkSuperset := network;
     TunnelRoutesListParams.VirtualNetworkID := virtualNetworkID |}.

(** The writes of lines 56-67 for the first listed route, [v] being the
    virtual network id read from the record on entry. *)
Definition write_back (v : string) (r : TunnelRoute.t) (d : ResourceData)
  : ResourceData :=
  let d1 := SetString "tunnel_id" (TunnelRoute.TunnelID r) d in
  let d2 := SetString "network" (TunnelRoute.Network r) d1 in
  let d3 := if (0 <? String.length (TunnelRoute.Comment r))%nat
            then SetString "comment" (TunnelRoute.Comment r) d2 else d2 in
  if negb (v =? EmptyString)
  then SetString "virtual_network_id" (TunnelRoute.VirtualNetworkID r) d3
  else d3.

(** The comment a create or update request carries (lines 83-85, 113-115). *)
Definition comment_of (d : ResourceData) : string :=
  match Get d "comment" with
  | VString c => c
  | _ => EmptyString
  end.

(** A field read as a string, [EmptyString] when it holds no string. *)
Definition field (d : ResourceData) (key : string) : string :=
  match Get d key with
  | VString s => s
  | _ => EmptyString
  end.

(** The query Read builds from a record. *)
Definition readQuery (d : ResourceData) : TunnelRoutesListParams.t :=
  listQuery (field d "account_id") (field d "network")
    (field d "virtual_network_id").

(** The identifier Create stores (lines 92-97). *)
Definition created_id (network virtualNetworkID : string) : string :=
  if negb (virtualNetworkID =? EmptyString)
  then slash_join network virtualNetworkID
  else network.

(** The requests of lines 76-85 and 105-115. *)
Definition createRequest (accountID tunnelID network comment virtualNetworkID : string)
  : TunnelRoutesCreateParams.t :=
  {| TunnelRoutesCreateParams.AccountID := accountID;
     TunnelRoutesCreateParams.TunnelID := tunnelID;
     TunnelRoutesCreateParams.Network := network;
     TunnelRoutesCreateParams.Comment := comment;
     TunnelRoutesCreateParams.VirtualNetworkID := virtualNetworkID |}.

Definition updateRequest (accountID tunnelID network comment virtualNetworkID : string)
  : TunnelRoutesUpdateParams.t :=
  {| TunnelRoutesUpdateParams.AccountID := accountID;
     TunnelRoutesUpdateParams.TunnelID := tunnelID;
     TunnelRoutesUpdateParams.Network := network;
     TunnelRoutesUpdateParams.Comment := comment;
     TunnelRoutesUpdateParams.VirtualNetworkID := virtualNetworkID |}.

(** A world after one more remote call. *)
Definition after_call {Remote} (w : World Remote) (rm : Remote) (c : Call)
  : World Remote :=
  {| data := data w; remote := rm; calls := calls w ++ [c] |}.

Definition with_data {Remote} (d : ResourceData) (w : World Remote)
  : World Remote :=
  {| data := d; remote := remote w; calls := calls w |}.

(** What the list call answers to the query Read builds in world [w]. *)
Definition answer {Remote} (client : API Remote) (w : World Remote)
  : result (list TunnelRoute.t) :=
  snd (ListTunnelRoutes client (readQuery (data w)) (remote w)).

(** The record Import hands to Read for a three-piece identifier. *)
Definition imported (a b c : string) (d : ResourceData) : ResourceData :=
  SetString "network" (slash_join b c)
    (SetString "account_id" a (SetId (slash_join b c) d)).

(** How Import ends once the delegated Read is over (lines 164-169). *)
Definition import_result {Remote} (read : Res Remote Diagnostics)
  : Res Remote (list ResourceData * option error) :=
  match read with
  | Returned (_ :: _) w' => Returned ([], Some (ErrorsNew read_state_failure)) w'
  | Returned [] w' => Returned ([data w'], None) w'
  | Panicked p w' => Panicked p w'
  end.

(** ** Stub remote services, to run the handlers on concrete inputs *)

(** A stateless remote: listing is a fixed function of the query, the other
    calls return fixed results. *)
Definition stubClient
    (listing : TunnelRoutesListParams.t -> result (list TunnelRoute.t))
    (created updated : result TunnelRoute.t)
    (deleted : option error) : API unit :=
  {| ListTunnelRoutes := fun p r => (r, listing p);
     CreateTunnelRoute := fun _ r => (r, created);
     UpdateTunnelRoute := fun _ r => (r, updated);
     DeleteTunnelRoute := fun _ r => (r, deleted) |}.

Definition world0 (d : ResourceData) : World unit :=
  {| data := d; remote := tt; calls := [] |}.

Definition importing (id : string) : ResourceData :=
  {| Id := id; attrs := ∅ |}.

(** A record with the given identifier and string fields. *)
Definition record (id : string) (fields : list (string * string))
  : ResourceData :=
  fold_right (fun kv d => SetString (fst kv) (snd kv) d) (importing id) fields.

Definition route (network tunnelID comment virtualNetworkID : string)
  : TunnelRoute.t :=
  {| TunnelRoute.Network := network;
     TunnelRoute.TunnelID := tunnelID;
     TunnelRoute.Comment := comment;
     TunnelRoute.VirtualNetworkID := virtualNetworkID |}.

Definition unavailable : error := RemoteError "service unavailable".

(** A remote with no route at all. *)
Definition emptyClient : API unit :=
  stubClient (fun _ => Ok []) (Err unavailable) (Err unavailable) None.

(** A remote whose list call fails. *)
Definition failingClient : API unit :=
  stubClient (fun _ => Err unavailable) (Err unavailable) (Err unavailable)
    (Some unavailable).

(** A remote that answers every query with one route for the queried
    network, in its default virtual network and without comment, and that
    creates and updates routes under a normalised network. *)
Definition echoClient : API unit :=
  stubClient
    (fun p => Ok [route (TunnelRoutesListParams.NetworkSubset p) "tun1"
                    EmptyString "vnet-default"])
    (Ok (route "10.0.0.0/8" "tun1" EmptyString "vnet-default"))
    (Ok (route "10.0.0.0/8" "tun1" EmptyString "vnet-default"))
    None.

(** A remote whose listing is a fixed function of the query but does not
    echo it: asked for 10.0.0.0/8 it lists a route for 10.0.0.0/9, asked for
    anything else it lists nothing. *)
Definition driftClient : API unit :=
  stubClient
    (fun p => if TunnelRoutesListParams.NetworkSubset p =? "10.0.0.0/8"
              then Ok [route "10.0.0.0/9" "tun1" EmptyString EmptyString]
              else Ok [])
    (Err unavailable) (Err unavailable) None.

Definition stored : ResourceData :=
  record "192.168.0.0/26"
    [("account_id", "acct1"); ("tunnel_id", "tun0");
     ("network", "192.168.0.0/26"); ("comment", "kept locally")].

(** The world after one Read of [stored] against [echoClient]. *)
Definition stored_read : World unit :=
  {| data := write_back EmptyString
               (route "192.168.0.0/26" "tun1" EmptyString "vnet-default") stored;
     remote := tt;
     calls := [CallList (listQuery "acct1" "192.168.0.0/26" EmptyString)] |}.

Definition desired : ResourceData :=
  record EmptyString
    [("account_id", "acct1"); ("tunnel_id", "tun1");
     ("network", "10.1.2.3/8"); ("virtual_network_id", "vnet1")].

Definition drifting : ResourceData :=
  record "10.0.0.0/8" [("account_id", "acct1"); ("network", "10.0.0.0/8")].

(** The worlds after one and after two Reads of [drifting] against
    [driftClient]. *)
Definition drifting_read : World unit :=
  {| data := write_back EmptyString
               (route "10.0.0.0/9" "tun1" EmptyString EmptyString) drifting;
     remote := tt;
     calls := [CallList (listQuery "acct1" "10.0.0.0/8" EmptyString)] |}.

Definition drifting_read_twice : World unit :=
  {| data := SetId EmptyString (data drifting_read);
     remote := tt;
     calls := [CallList (listQuery "acct1" "10.0.0.0/8" EmptyString);
               CallList (listQuery "acct1" "10.0.0.0/9" EmptyString)] |}.

(** ** Vocabulary for the handlers as a whole *)

(** The request of lines 129-133. *)
Definition deleteRequest (accountID network virtualNetworkID : string)
  : TunnelRoutesDeleteParams.t :=
  {| TunnelRoutesDeleteParams.AccountID := accountID;
     TunnelRoutesDeleteParams.Network := network;
     TunnelRoutesDeleteParams.VirtualNetworkID := virtualNetworkID |}.

(** Every field the schema declares reads as a string. *)
Definition schema_typed (d : ResourceData) : Prop :=
  forall key,
    resourceCloudflareTunnelRouteSchema key = Some TypeString ->
    exists s, Get d key = VString s.

(** A remote on which routes can be created and updated but are never
    listed. *)
Definition vanishingClient : API unit :=
  stubClient (fun _ => Ok [])
    (Ok (route "10.0.0.0/8" "tun1" EmptyString "vnet-default"))
    (Ok (route "10.0.0.0/8" "tun1" EmptyString "vnet-default"))
    None.

(** The worlds after Create and after Update of [desired] against
    [echoClient], and after Import of an account and network. *)
Definition desired_created : World unit :=
  {| data := write_back "vnet1"
               (route "10.1.2.3/8" "tun1" EmptyString "vnet-default")
               (SetId "10.0.0.0/8/vnet1" desired);
     remote := tt;
     calls := [CallCreate (createRequest "acct1" "tun1" "10.1.2.3/8"
                             EmptyString "vnet1");
               CallList (listQuery "acct1" "10.1.2.3/8" "vnet1")] |}.

Definition desired_updated : World unit :=
  {| data := write_back "vnet1"
               (route "10.1.2.3/8" "tun1" EmptyString "vnet-default") desired;
     remote := tt;
     calls := [CallUpdate (updateRequest "acct1" "tun1" "10.1.2.3/8"
                             EmptyString "vnet1");
               CallList (listQuery "acct1" "10.1.2.3/8" "vnet1")] |}.

Definition imported_world : World unit :=
  {| data := write_back EmptyString
               (route "192.168.0.0/26" "tun1" EmptyString "vnet-default")
               (imported "acct1" "192.168.0.0" "26"
                  (importing "acct1/192.168.0.0/26"));
     remote := tt;
     calls := [CallList (listQuery "acct1" "192.168.0.0/26" EmptyString)] |}.

(** One remote call run on a remote state: the state it leaves and the
    error it returns, if any. *)
Definition run_call {Remote} (client : API Remote) (c : Call) (rm : Remote)
  : Remote * option error :=
  let failure {A} (res : result A) : option error :=
    match res with
    | Err e => Some e
    | Ok _ => None
    end in
  match c with
  | CallList p =>
      let (rm', res) := ListTunnelRoutes client p rm in (rm', failure res)
  | CallCreate p =>
      let (rm', res) := CreateTunnelRoute client p rm in (rm', failure res)
  | CallUpdate p =>
      let (rm', res) := UpdateTunnelRoute client p rm in (rm', failure res)
  | CallDelete p => DeleteTunnelRoute client p rm
  end.

(** A remote that keeps the comment of its one route as its state and
    treats an update as a patch: an empty comment in the request leaves the
    stored comment alone. *)
Definition patchingClient : API string :=
  {| ListTunnelRoutes := fun p c =>
       (c, Ok [route (TunnelRoutesListParams.NetworkSubset p) "tun1" c
                 (TunnelRoutesListParams.VirtualNetworkID p)]);
     CreateTunnelRoute := fun p _ =>
       (TunnelRoutesCreateParams.Comment p,
        Ok (route (TunnelRoutesCreateParams.Network p)
              (TunnelRoutesCreateParams.TunnelID p)
              (TunnelRoutesCreateParams.Comment p)
              (TunnelRoutesCreateParams.VirtualNetworkID p)));
     UpdateTunnelRoute := fun p c =>
       let c' := if TunnelRoutesUpdateParams.Comment p =? EmptyString
                 then c else TunnelRoutesUpdateParams.Comment p in
       (c', Ok (route (TunnelRoutesUpdateParams.Network p)
                  (TunnelRoutesUpdateParams.TunnelID p) c'
                  (TunnelRoutesUpdateParams.VirtualNetworkID p)));
     DeleteTunnelRoute := fun _ _ => (EmptyString, None) |}.

(** [desired], which has no comment, facing a route commented earlier, and
    the world after Update against [patchingClient]. *)
Definition commented_world : World string :=
  {| data := desired; remote := "set earlier"; calls := [] |}.

Definition patched_world : World string :=
  {| data := write_back "vnet1"
               (route "10.1.2.3/8" "tun1" "set earlier" "vnet1") desired;
     remote := "set earlier";
     calls := [CallUpdate (updateRequest "acct1" "tun1" "10.1.2.3/8"
                             EmptyString "vnet1");
               CallList (listQuery "acct1" "10.1.2.3/8" "vnet1")] |}.

(** * Properties *)

Arguments Get : simpl never.

(** ** Splitting identifiers *)

Lemma cut_None_Count sep s : cut sep s = None -> Count s sep = 0.
Proof.
  induction s as [|c s IH]; simpl; [reflexivity|].
  destruct (Ascii.eqb c sep); [discriminate|].
  destruct (cut sep s) as [[x y]|]; [discriminate|].
  intros _. now rewrite IH.
Qed.

Lemma cut_Some_Count sep s x y :
  cut sep s = Some (x, y) -> Count s sep = S (Count y sep).
Proof.
  revert x; induction s as [|c s IH]; simpl; intros x; [discriminate|].
  destruct (Ascii.eqb c sep).
  - intros [= _ <-]. reflexivity.
  - destruct (cut sep s) as [[x' y']|]; [|discriminate].
    intros [= _ <-]. simpl. now apply (IH x').
Qed.

(** [strings.SplitN] returns [min n (Count + 1)] pieces. *)
Lemma SplitN_length s sep n :
  length (SplitN s sep (S n)) = Nat.min (S n) (S (Count s sep)).
Proof.
  revert s; induction n as [|n IH]; intros s.
  - reflexivity.
  - change (SplitN s sep (S (S n)))
      with (match cut sep s with
            | None => [s]
            | Some (before, after) => before :: SplitN after sep (S n)
            end).
    destruct (cut sep s) as [[x y]|] eqn:E.
    + apply cut_Some_Count in E. rewrite E. cbn [length]. rewrite IH. lia.
    + apply cut_None_Count in E. rewrite E. reflexivity.
Qed.

Lemma SplitN4_length id :
  length (SplitN id "/"%char 4) = Nat.min 4 (segments id).
Proof. apply SplitN_length. Qed.

(** Four pieces come out exactly when the identifier has four segments or
    more; fewer than three pieces exactly when it has fewer than three. *)
Lemma SplitN4_four id :
  length (SplitN id "/"%char 4) = 4 <-> 4 <= segments id.
Proof. rewrite SplitN4_length. lia. Qed.

Lemma SplitN4_short id :
  length (SplitN id "/"%char 4) < 3 <-> segments id < 3.
Proof. rewrite SplitN4_length. lia. Qed.

Lemma String_length_pos_false (s : string) :
  (0 <? String.length s)%nat = negb (s =? EmptyString).
Proof. destruct s; reflexivity. Qed.

(** Case analysis on the [decide]s of a goal, then propositional closing. *)
Ltac by_cases :=
  repeat case_decide;
  first [ done | intuition (try discriminate; congruence) ].

Section Properties.
Context {Remote : Type}.
Variable client : API Remote.

Local Abbreviation Read := (resourceCloudflareTunnelRouteRead client).
Local Abbreviation Create := (resourceCloudflareTunnelRouteCreate client).
Local Abbreviation Update := (resourceCloudflareTunnelRouteUpdate client).
Local Abbreviation Delete := (resourceCloudflareTunnelRouteDelete client).
Local Abbreviation Import := (resourceCloudflareTunnelRouteImport client).
Local Abbreviation answer := (answer client).

(** ** Stepping through the monad *)

Lemma bind_get_string {B} key s (k : string -> M Remote B) (w : World Remote) :
  Get (data w) key = VString s ->
  (let! x := get_string key in k x) w = k s w.
Proof.
  intros H. cbv [bind get_string d_Get]. rewrite H. reflexivity.
Qed.

Lemma bind_remote_call {P A B} (log : P -> Call) f (p : P) (rm : Remote) (a : A)
    (k : A -> M Remote B) (w : World Remote) :
  f p (remote w) = (rm, a) ->
  (let! x := remote_call log f p in k x) w = k a (after_call w rm (log p)).
Proof.
  intros H. unfold bind, remote_call. rewrite H. reflexivity.
Qed.

(** Read up to the answer of the list call. *)
Lemma Read_unfold (w : World Remote) a n v rm listed :
  Get (data w) "account_id" = VString a ->
  Get (data w) "network" = VString n ->
  Get (data w) "virtual_network_id" = VString v ->
  ListTunnelRoutes client (listQuery a n v) (remote w) = (rm, listed) ->
  Read w =
  let wl := after_call w rm (CallList (listQuery a n v)) in
  match listed with
  | Err err =>
      Returned (FromErr (Errorf "failed to fetch Tunnel Route: %w" [ArgW err])) wl
  | Ok [] => Returned [] (with_data (SetId EmptyString (data w)) wl)
  | Ok (r :: _) => Returned [] (with_data (write_back v r (data w)) wl)
  end.
Proof.
  intros Ha Hn Hv Hl. unfold resourceCloudflareTunnelRouteRead.
  rewrite (bind_get_string _ _ _ _ Ha).
  rewrite (bind_get_string _ _ _ _ Hn).
  rewrite (bind_get_string _ _ _ _ Hv).
  rewrite (bind_remote_call _ _ _ _ _ _ _ Hl).
  destruct listed as [[|r rest]|err]; try reflexivity.
  change (length (r :: rest) <? 1)%nat with false.
  cbv [index]. change ((r :: rest) !! 0) with (Some r).
  cbv [bind d_Set ret write_back].
  destruct (0 <? String.length (TunnelRoute.Comment r))%nat;
    destruct (negb (v =? EmptyString)); reflexivity.
Qed.

Lemma bind_get_string_panic {B} key (k : string -> M Remote B) (w : World Remote) :
  (forall s, Get (data w) key <> VString s) ->
  (let! x := get_string key in k x) w
  = Panicked (PanicTypeAssertion (Get (data w) key)) w.
Proof.
  intros H. cbv [bind get_string d_Get].
  destruct (Get (data w) key) as [| s | |]; try reflexivity.
  now destruct (H s).
Qed.

Lemma string_or_not (v : value) :
  (exists s, v = VString s) \/ (forall s, v <> VString s).
Proof. destruct v; eauto; right; discriminate. Qed.

(** A Read that returns has found strings in the three fields it reads. *)
Lemma Read_returns_inv (w w' : World Remote) diags :
  Read w = Returned diags w' ->
  exists a n v,
    Get (data w) "account_id" = VString a
    /\ Get (data w) "network" = VString n
    /\ Get (data w) "virtual_network_id" = VString v.
Proof.
  intros H. unfold resourceCloudflareTunnelRouteRead in H.
  destruct (string_or_not (Get (data w) "account_id")) as [[a Ha]|Ha];
    [|rewrite (bind_get_string_panic _ _ _ Ha) in H; discriminate].
  rewrite (bind_get_string _ _ _ _ Ha) in H.
  destruct (string_or_not (Get (data w) "network")) as [[n Hn]|Hn];
    [|rewrite (bind_get_string_panic _ _ _ Hn) in H; discriminate].
  rewrite (bind_get_string _ _ _ _ Hn) in H.
  destruct (string_or_not (Get (data w) "virtual_network_id")) as [[v Hv]|Hv];
    [|rewrite (bind_get_string_panic _ _ _ Hv) in H; discriminate].
  eauto 6.
Qed.

Lemma SetString_id key s (d : ResourceData) :
  attrs d !! key = Some (VString s) -> SetString key s d = d.
Proof.
  intros H. destruct d as [i m]; unfold SetString; simpl in *.
  f_equal. now apply insert_id.
Qed.

Lemma Get_SetString_eq key s d : Get (SetString key s d) key = VString s.
Proof. unfold Get, SetString; simpl. now rewrite lookup_insert_eq. Qed.

Lemma Get_SetString_ne key key' s d :
  key <> key' -> Get (SetString key s d) key' = Get d key'.
Proof. intros H. unfold Get, SetString; simpl. now rewrite lookup_insert_ne. Qed.

Lemma attrs_write_back v r d key :
  attrs (write_back v r d) !! key =
  if decide (key = "virtual_network_id" /\ v <> EmptyString)
  then Some (VString (TunnelRoute.VirtualNetworkID r))
  else if decide (key = "comment" /\ TunnelRoute.Comment r <> EmptyString)
  then Some (VString (TunnelRoute.Comment r))
  else if decide (key = "network")
  then Some (VString (TunnelRoute.Network r))
  else if decide (key = "tunnel_id")
  then Some (VString (TunnelRoute.TunnelID r))
  else attrs d !! key.
Proof.
  unfold write_back. rewrite String_length_pos_false. cbv zeta.
  destruct (String.eqb_spec v EmptyString) as [Ev|Ev];
    destruct (String.eqb_spec (TunnelRoute.Comment r) EmptyString) as [Ec|Ec];
    cbn [negb SetString attrs];
    repeat case_decide; destruct_and?; subst; simplify_map_eq; try done;
    repeat (rewrite lookup_insert_ne by naive_solver); try done;
    naive_solver.
Qed.

Lemma Id_write_back v r d : Id (write_back v r d) = Id d.
Proof.
  unfold write_back. cbv zeta.
  destruct (0 <? String.length (TunnelRoute.Comment r))%nat;
    destruct (negb (v =? EmptyString)); reflexivity.
Qed.

(** ** Read *)

(** C5: when the list call succeeds with zero routes, Read sets the
    identifier to the empty string, leaves every field as it was, and returns
    no diagnostics; its only remote call is the list query. *)
Theorem Read_not_found_clears_id (w : World Remote) a n v rm :
  Get (data w) "account_id" = VString a ->
  Get (data w) "network" = VString n ->
  Get (data w) "virtual_network_id" = VString v ->
  ListTunnelRoutes client (listQuery a n v) (remote w) = (rm, Ok []) ->
  exists w',
    Read w = Returned [] w'
    /\ Id (data w') = EmptyString
    /\ attrs (data w') = attrs (data w)
    /\ remote w' = rm
    /\ calls w' = (calls w ++ [CallList (listQuery a n v)])%list.
Proof.
  intros Ha Hn Hv Hl. eexists. split.
  - rewrite (Read_unfold w a n v rm _ Ha Hn Hv Hl). reflexivity.
  - repeat split.
Qed.

(** C4: when the list call succeeds with at least one route, Read returns no
    diagnostics and copies from the first route [r]: [tunnel_id] and
    [network] always; [comment] only if [r]'s comment is not empty;
    [virtual_network_id] only if the record's own virtual network id [v],
    read on entry, is not empty.  The identifier and every other field are
    left alone. *)
Theorem Read_copies_first_route (w : World Remote) a n v rm r rest :
  Get (data w) "account_id" = VString a ->
  Get (data w) "network" = VString n ->
  Get (data w) "virtual_network_id" = VString v ->
  ListTunnelRoutes client (listQuery a n v) (remote w) = (rm, Ok (r :: rest)) ->
  exists w',
    Read w = Returned [] w'
    /\ Id (data w') = Id (data w)
    /\ attrs (data w') !! "tunnel_id" = Some (VString (TunnelRoute.TunnelID r))
    /\ attrs (data w') !! "network" = Some (VString (TunnelRoute.Network r))
    /\ attrs (data w') !! "comment" =
         (if TunnelRoute.Comment r =? EmptyString
          then attrs (data w) !! "comment"
          else Some (VString (TunnelRoute.Comment r)))
    /\ attrs (data w') !! "virtual_network_id" =
         (if v =? EmptyString
          then attrs (data w) !! "virtual_network_id"
          else Some (VString (TunnelRoute.VirtualNetworkID r)))
    /\ (forall key,
          key <> "tunnel_id" -> key <> "network" -> key <> "comment" ->
          key <> "virtual_network_id" ->
          attrs (data w') !! key = attrs (data w) !! key).
Proof.
  intros Ha Hn Hv Hl. eexists. split.
  - rewrite (Read_unfold w a n v rm _ Ha Hn Hv Hl). reflexivity.
  - cbn [data with_data after_call]. split; [apply Id_write_back|].
    repeat split; try intros key ? ? ? ?; rewrite attrs_write_back;
      repeat case_decide; destruct_and?; try done.
    + destruct (String.eqb_spec (TunnelRoute.Comment r) EmptyString);
        naive_solver.
    + destruct (String.eqb_spec (TunnelRoute.Comment r) EmptyString);
        naive_solver.
    + destruct (String.eqb_spec v EmptyString); naive_solver.
    + destruct (String.eqb_spec v EmptyString); naive_solver.
Qed.

Lemma ResourceData_eq (d1 d2 : ResourceData) :
  Id d1 = Id d2 -> (forall key, attrs d1 !! key = attrs d2 !! key) -> d1 = d2.
Proof.
  destruct d1 as [i1 m1], d2 as [i2 m2]; simpl. intros -> H.
  f_equal. now apply map_eq.
Qed.

Lemma Get_congr (d1 d2 : ResourceData) key :
  attrs d1 !! key = attrs d2 !! key -> Get d1 key = Get d2 key.
Proof. unfold Get. now intros ->. Qed.

Lemma answer_eq (w : World Remote) a n v :
  Get (data w) "account_id" = VString a ->
  Get (data w) "network" = VString n ->
  Get (data w) "virtual_network_id" = VString v ->
  answer w = snd (ListTunnelRoutes client (listQuery a n v) (remote w)).
Proof.
  intros Ha Hn Hv. unfold answer, readQuery, field. now rewrite Ha, Hn, Hv.
Qed.

(** Read through the answer of its list call, whatever it is. *)
Lemma Read_by_answer (w : World Remote) a n v :
  Get (data w) "account_id" = VString a ->
  Get (data w) "network" = VString n ->
  Get (data w) "virtual_network_id" = VString v ->
  exists rm,
    Read w =
    let wl := after_call w rm (CallList (listQuery a n v)) in
    match answer w with
    | Err err =>
        Returned (FromErr (Errorf "failed to fetch Tunnel Route: %w" [ArgW err])) wl
    | Ok [] => Returned [] (with_data (SetId EmptyString (data w)) wl)
    | Ok (r :: _) => Returned [] (with_data (write_back v r (data w)) wl)
    end.
Proof.
  intros Ha Hn Hv. rewrite (answer_eq w a n v Ha Hn Hv).
  destruct (ListTunnelRoutes client (listQuery a n v) (remote w))
    as [rm listed] eqn:Hl.
  exists rm. apply (Read_unfold w a n v rm listed Ha Hn Hv Hl).
Qed.

(** C9, amended: if the list call made by a second Read is answered like the
    one made by the first (no remote change in between, and the query rebuilt
    from the fields the first Read wrote back gets the same answer), the
    second Read returns the same diagnostics and leaves the record exactly as
    the first Read left it. *)
Theorem Read_twice_when_answer_repeats (w w1 : World Remote) diags :
  Read w = Returned diags w1 ->
  answer w1 = answer w ->
  exists w2, Read w1 = Returned diags w2 /\ data w2 = data w1.
Proof.
  intros H Hans.
  destruct (Read_returns_inv _ _ _ H) as (a & n & v & Ha & Hn & Hv).
  destruct (Read_by_answer w a n v Ha Hn Hv) as [rm E].
  rewrite E in H. clear E. cbv zeta in H.
  destruct (answer w) as [[|r rest]|err] eqn:Ew;
    injection H as <- <-.
  - (* zero routes: the identifier is cleared again *)
    destruct (Read_by_answer
                (with_data (SetId EmptyString (data w))
                   (after_call w rm (CallList (listQuery a n v)))) a n v
                Ha Hn Hv) as [rm2 E2].
    rewrite E2, Hans. eexists. split; reflexivity.
  - (* a route: the same writes are repeated *)
    set (w1 := with_data (write_back v r (data w))
                 (after_call w rm (CallList (listQuery a n v)))) in *.
    set (v1 := if negb (v =? EmptyString)
               then TunnelRoute.VirtualNetworkID r else v).
    assert (Ha1 : Get (data w1) "account_id" = VString a).
    { rewrite <- Ha. apply Get_congr. cbn [data w1 with_data].
      rewrite attrs_write_back. by_cases. }
    assert (Hn1 : Get (data w1) "network"
                  = VString (TunnelRoute.Network r)).
    { unfold Get. cbn [data w1 with_data]. rewrite attrs_write_back.
      by_cases. }
    assert (Hv1 : Get (data w1) "virtual_network_id" = VString v1).
    { unfold v1. destruct (String.eqb_spec v EmptyString) as [Ev|Ev]; cbn [negb].
      - rewrite <- Hv. apply Get_congr. cbn [data w1 with_data].
        rewrite attrs_write_back. by_cases.
      - unfold Get. cbn [data w1 with_data]. rewrite attrs_write_back.
        by_cases. }
    destruct (Read_by_answer w1 a _ v1 Ha1 Hn1 Hv1) as [rm2 E2].
    rewrite E2, Hans. eexists. split; [reflexivity|].
    cbn [data w1 with_data after_call].
    apply ResourceData_eq; [now rewrite !Id_write_back|].
    intros key. rewrite !attrs_write_back. unfold v1.
    destruct (String.eqb_spec v EmptyString) as [Ev|Ev]; cbn [negb];
      by_cases.
  - (* the list call failed: nothing was written *)
    destruct (Read_by_answer
                (after_call w rm (CallList (listQuery a n v))) a n v
                Ha Hn Hv) as [rm2 E2].
    rewrite E2, Hans. eexists. split; reflexivity.
Qed.

(** The answer does repeat when the listing depends on the query alone and
    the first listed route echoes the queried network and, if one was asked
    for, the queried virtual network. *)
Lemma answer_repeats_when_echoed (w w1 : World Remote) a n v rm r rest diags :
  (forall p rm1 rm2,
     snd (ListTunnelRoutes client p rm1) = snd (ListTunnelRoutes client p rm2)) ->
  Get (data w) "account_id" = VString a ->
  Get (data w) "network" = VString n ->
  Get (data w) "virtual_network_id" = VString v ->
  ListTunnelRoutes client (listQuery a n v) (remote w) = (rm, Ok (r :: rest)) ->
  TunnelRoute.Network r = n ->
  (v <> EmptyString -> TunnelRoute.VirtualNetworkID r = v) ->
  Read w = Returned diags w1 ->
  answer w1 = answer w.
Proof.
  intros Hfix Ha Hn Hv Hl Hnet Hvnet H.
  rewrite (Read_unfold w a n v rm _ Ha Hn Hv Hl) in H.
  injection H as <- <-.
  rewrite (answer_eq w a n v Ha Hn Hv).
  rewrite (answer_eq _ a n v).
  - apply Hfix.
  - rewrite <- Ha. apply Get_congr. cbn [data with_data].
    rewrite attrs_write_back. by_cases.
  - unfold Get. cbn [data with_data]. rewrite attrs_write_back, Hnet. by_cases.
  - destruct (String.eqb_spec v EmptyString) as [Ev|Ev].
    + rewrite <- Hv. apply Get_congr. cbn [data with_data].
      rewrite attrs_write_back. by_cases.
    + unfold Get. cbn [data with_data].
      rewrite attrs_write_back, (Hvnet Ev). by_cases.
Qed.

(** Read keeps the identifier or clears it. *)
Lemma Read_Id (w w' : World Remote) diags :
  Read w = Returned diags w' ->
  Id (data w') = Id (data w) \/ (Id (data w') = EmptyString /\ diags = []).
Proof.
  intros H.
  destruct (Read_returns_inv _ _ _ H) as (a & n & v & Ha & Hn & Hv).
  destruct (Read_by_answer w a n v Ha Hn Hv) as [rm E].
  rewrite E in H. clear E. cbv zeta in H.
  destruct (answer w) as [[|r rest]|err]; injection H as <- <-.
  - right. split; reflexivity.
  - left. apply Id_write_back.
  - left. reflexivity.
Qed.

(** ** Create and Update *)

Lemma bind_d_Get {B} key (k : value -> M Remote B) (w : World Remote) :
  (let! x := d_Get key in k x) w = k (Get (data w) key) w.
Proof. reflexivity. Qed.

(** Create up to the answer of the create call. *)
Lemma Create_unfold (w : World Remote) a t n v rm created :
  Get (data w) "virtual_network_id" = VString v ->
  Get (data w) "account_id" = VString a ->
  Get (data w) "tunnel_id" = VString t ->
  Get (data w) "network" = VString n ->
  let request := createRequest a t n (comment_of (data w)) v in
  CreateTunnelRoute client request (remote w) = (rm, created) ->
  Create w =
  let wc := after_call w rm (CallCreate request) in
  match created with
  | Err err =>
      Returned (FromErr (Errorf "error creating Tunnel Route for Network %q: %w"
                           [ArgQ n; ArgW err])) wc
  | Ok r => Read (with_data (SetId (created_id (TunnelRoute.Network r) v) (data w)) wc)
  end.
Proof.
  intros Hv Ha Ht Hn request Hc. unfold resourceCloudflareTunnelRouteCreate.
  rewrite (bind_get_string _ _ _ _ Hv).
  rewrite (bind_get_string _ _ _ _ Ha).
  rewrite (bind_get_string _ _ _ _ Ht).
  rewrite (bind_get_string _ _ _ _ Hn).
  rewrite bind_d_Get.
  assert (Hreq :
    match Get (data w) "comment" with
    | VString comment =>
        TunnelRoutesCreateParams.with_Comment comment
          (createRequest a t n EmptyString v)
    | _ => createRequest a t n EmptyString v
    end = request).
  { unfold request, comment_of. destruct (Get (data w) "comment"); reflexivity. }
  change (TunnelRoutesCreateParams.Build a t n EmptyString v)
    with (createRequest a t n EmptyString v).
  cbv zeta. rewrite Hreq.
  rewrite (bind_remote_call _ _ _ _ _ _ _ Hc).
  destruct created as [r|err].
  - unfold created_id. destruct (negb (v =? EmptyString)); reflexivity.
  - rewrite (bind_get_string "network" n); [reflexivity|exact Hn].
Qed.

(** Update up to the answer of the update call. *)
Lemma Update_unfold (w : World Remote) a t n v rm updated :
  Get (data w) "account_id" = VString a ->
  Get (data w) "tunnel_id" = VString t ->
  Get (data w) "network" = VString n ->
  Get (data w) "virtual_network_id" = VString v ->
  let request := updateRequest a t n (comment_of (data w)) v in
  UpdateTunnelRoute client request (remote w) = (rm, updated) ->
  Update w =
  let wu := after_call w rm (CallUpdate request) in
  match updated with
  | Err err =>
      Returned (FromErr (Errorf "error updating Tunnel Route for Network %q: %w"
                           [ArgQ n; ArgW err])) wu
  | Ok _ => Read wu
  end.
Proof.
  intros Ha Ht Hn Hv request Hu. unfold resourceCloudflareTunnelRouteUpdate.
  rewrite (bind_get_string _ _ _ _ Ha).
  rewrite (bind_get_string _ _ _ _ Ht).
  rewrite (bind_get_string _ _ _ _ Hn).
  rewrite (bind_get_string _ _ _ _ Hv).
  rewrite bind_d_Get.
  assert (Hreq :
    match Get (data w) "comment" with
    | VString comment =>
        TunnelRoutesUpdateParams.with_Comment comment
          (updateRequest a t n EmptyString v)
    | _ => updateRequest a t n EmptyString v
    end = request).
  { unfold request, comment_of. destruct (Get (data w) "comment"); reflexivity. }
  change (TunnelRoutesUpdateParams.Build a t n EmptyString v)
    with (updateRequest a t n EmptyString v).
  cbv zeta. rewrite Hreq.
  rewrite (bind_remote_call _ _ _ _ _ _ _ Hu).
  destruct updated as [r|err].
  - reflexivity.
  - rewrite (bind_get_string "network" n); [reflexivity|exact Hn].
Qed.

(** C3, amended: when the remote create call succeeds with route [r],
    Create stores as identifier the network of [r] alone if the record's
    virtual network id [v] is empty and that network, slash, [v] otherwise,
    and then runs Read on the record so updated.  The network of the
    identifier is the one the remote returned, not the one of the record. *)
Theorem Create_sets_id_then_reads (w : World Remote) a t n v rm r :
  Get (data w) "virtual_network_id" = VString v ->
  Get (data w) "account_id" = VString a ->
  Get (data w) "tunnel_id" = VString t ->
  Get (data w) "network" = VString n ->
  let request := createRequest a t n (comment_of (data w)) v in
  CreateTunnelRoute client request (remote w) = (rm, Ok r) ->
  exists id,
    Create w = Read {| data := SetId id (data w);
                       remote := rm;
                       calls := calls w ++ [CallCreate request] |}
    /\ (v = EmptyString -> id = TunnelRoute.Network r)
    /\ (v <> EmptyString -> id = TunnelRoute.Network r +:+ "/" +:+ v).
Proof.
  intros Hv Ha Ht Hn request Hc.
  exists (created_id (TunnelRoute.Network r) v). split.
  - rewrite (Create_unfold w a t n v rm _ Hv Ha Ht Hn Hc). reflexivity.
  - unfold created_id.
    destruct (String.eqb_spec v EmptyString); cbn [negb]; split; intros; done.
Qed.

(** C10: the identifier Create stores is built from the network of the route
    [r] returned by the create call and from the record's own virtual
    network id [v]; the record's network [n] plays no part in it and stays in
    the [network] field for the Read that follows.  When Create returns, the
    identifier is still that one, unless that Read found no route and cleared
    it. *)
Theorem Create_id_uses_response_network (w : World Remote) a t n v rm r :
  Get (data w) "virtual_network_id" = VString v ->
  Get (data w) "account_id" = VString a ->
  Get (data w) "tunnel_id" = VString t ->
  Get (data w) "network" = VString n ->
  CreateTunnelRoute client (createRequest a t n (comment_of (data w)) v) (remote w)
  = (rm, Ok r) ->
  exists ws,
    Create w = Read ws
    /\ Id (data ws) = created_id (TunnelRoute.Network r) v
    /\ Get (data ws) "network" = VString n
    /\ (forall diags w',
          Create w = Returned diags w' ->
          Id (data w') = created_id (TunnelRoute.Network r) v
          \/ (Id (data w') = EmptyString /\ diags = [])).
Proof.
  intros Hv Ha Ht Hn Hc.
  pose proof (Create_unfold w a t n v rm _ Hv Ha Ht Hn Hc) as E.
  cbv zeta in E. eexists. split; [exact E|].
  split; [reflexivity|]. split; [exact Hn|].
  intros diags w' H. rewrite E in H. apply Read_Id in H. exact H.
Qed.

(** C6, amended: Update sends account, tunnel, network, virtual network and
    comment to the remote update call; the comment is the empty string unless
    the record holds a string under [comment], so a record without a comment
    sends an empty one.  When the call succeeds Update continues as Read;
    when it fails it returns the wrapped error.  What the remote does with
    the empty comment is not decided by the handler. *)
Theorem Update_sends_full_field_set (w : World Remote) a t n v rm updated :
  Get (data w) "account_id" = VString a ->
  Get (data w) "tunnel_id" = VString t ->
  Get (data w) "network" = VString n ->
  Get (data w) "virtual_network_id" = VString v ->
  let comment :=
    match Get (data w) "comment" with
    | VString c => c
    | _ => EmptyString
    end in
  let request := updateRequest a t n comment v in
  UpdateTunnelRoute client request (remote w) = (rm, updated) ->
  let wu := {| data := data w; remote := rm;
               calls := calls w ++ [CallUpdate request] |} in
  Update w =
    match updated with
    | Ok _ => Read wu
    | Err err =>
        Returned (FromErr (Errorf "error updating Tunnel Route for Network %q: %w"
                             [ArgQ n; ArgW err])) wu
    end
  /\ (attrs (data w) !! "comment" = None -> comment = EmptyString).
Proof.
  intros Ha Ht Hn Hv comment request Hu wu. split.
  - rewrite (Update_unfold w a t n v rm updated Ha Ht Hn Hv Hu).
    destruct updated; reflexivity.
  - intros Hnone. unfold comment, Get. rewrite Hnone. reflexivity.
Qed.

(** ** Import *)

Lemma Import_three (w : World Remote) a b c :
  SplitN (Id (data w)) "/"%char 4 = [a; b; c] ->
  Import w = import_result (Read (with_data (imported a b c (data w)) w)).
Proof.
  intros H. unfold resourceCloudflareTunnelRouteImport.
  cbv [bind d_Id]. rewrite H.
  cbn [length Nat.eqb negb andb]. cbv [index]. cbn [lookup list_lookup].
  cbv [ret d_SetId d_Set]. cbv beta iota.
  unfold import_result, with_data, imported. cbn [data remote calls].
  destruct (resourceCloudflareTunnelRouteRead client _) as [[|e diags] w'|p w'];
    reflexivity.
Qed.

(** C1, amended: an identifier with fewer than three slash-delimited
    segments (one or two, such as [bad-id]) makes Import return the
    invalid-identifier error, built from the format naming the two accepted
    forms and from the identifier itself (printed with [%q]); the record is
    not written and no remote call is made, so Read is not run. *)
Theorem Import_rejects_short_id (w : World Remote) :
  segments (Id (data w)) < 3 ->
  Import w = Returned ([], Some (Errorf invalid_id_format [ArgQ (Id (data w))])) w
  /\ is_Some (String.index 0 (dq +:+ "accountID/network" +:+ dq)
                invalid_id_format)
  /\ is_Some (String.index 0
                (dq +:+ "accountID/network/virtual_network_id" +:+ dq)
                invalid_id_format).
Proof.
  intros Hseg. split; [|split; vm_compute; eauto].
  unfold resourceCloudflareTunnelRouteImport. cbv [bind d_Id].
  pose proof (SplitN4_length (Id (data w))) as Hlen.
  destruct (Nat.eqb_spec (length (SplitN (Id (data w)) "/"%char 4)) 3) as [E|_];
    [lia|].
  destruct (Nat.eqb_spec (length (SplitN (Id (data w)) "/"%char 4)) 4) as [E|_];
    [lia|].
  reflexivity.
Qed.

(** C2: an identifier that [strings.SplitN] cuts into four pieces makes
    Import panic on [attributes[4]] (index 4, length 4) before anything is
    written or any remote call is made; Import never returns on such an
    identifier. *)
Theorem Import_four_pieces_panics (w : World Remote) :
  length (SplitN (Id (data w)) "/"%char 4) = 4 ->
  Import w = Panicked (PanicIndexOutOfRange 4 4) w
  /\ (forall res w', Import w <> Returned res w').
Proof.
  intros Hlen.
  assert (E : Import w = Panicked (PanicIndexOutOfRange 4 4) w).
  { unfold resourceCloudflareTunnelRouteImport. cbv [bind d_Id].
    destruct (SplitN (Id (data w)) "/"%char 4)
      as [|a0 [|a1 [|a2 [|a3 [|a4 l]]]]]; try discriminate.
    reflexivity. }
  split; [exact E|]. intros res w'. rewrite E. discriminate.
Qed.

(** C7: an identifier cut into exactly three pieces [a], [b], [c] makes
    Import set the identifier and the [network] field to [b/c] and
    [account_id] to [a], leave [virtual_network_id] as it was, make no remote
    call of its own, and end as the Read of that record ends. *)
Theorem Import_three_pieces (w : World Remote) a b c :
  SplitN (Id (data w)) "/"%char 4 = [a; b; c] ->
  exists ws,
    Import w = import_result (Read ws)
    /\ Id (data ws) = b +:+ "/" +:+ c
    /\ Get (data ws) "network" = VString (b +:+ "/" +:+ c)
    /\ Get (data ws) "account_id" = VString a
    /\ attrs (data ws) !! "virtual_network_id"
       = attrs (data w) !! "virtual_network_id"
    /\ (forall key, key <> "network" -> key <> "account_id" ->
          attrs (data ws) !! key = attrs (data w) !! key)
    /\ remote ws = remote w /\ calls ws = calls w.
Proof.
  intros H. eexists. split; [apply (Import_three w a b c H)|].
  cbn [data with_data remote calls]. unfold imported. repeat split.
  - apply Get_SetString_eq.
  - rewrite Get_SetString_ne by done. apply Get_SetString_eq.
  - cbn. now rewrite !lookup_insert_ne by done.
  - intros key H1 H2. cbn. now rewrite !lookup_insert_ne by done.
Qed.

(** C8: when the Read that Import delegates to returns diagnostics, Import
    returns no record and the error [errors.New] makes from the fixed text
    [failed to read Tunnel Route state]; that error wraps nothing and is the
    same whatever Read reported. *)
Theorem Import_read_failure_is_generic (w w' : World Remote) a b c e diags :
  SplitN (Id (data w)) "/"%char 4 = [a; b; c] ->
  Read (with_data (imported a b c (data w)) w) = Returned (e :: diags) w' ->
  Import w = Returned ([], Some (ErrorsNew "failed to read Tunnel Route state")) w'
  /\ Unwrap (ErrorsNew "failed to read Tunnel Route state") = None.
Proof.
  intros H Hread. split; [|reflexivity].
  rewrite (Import_three w a b c H), Hread. reflexivity.
Qed.

End Properties.

(** * The theorems on concrete inputs *)

Lemma Read_not_found_clears_id_witness :
  exists w',
    resourceCloudflareTunnelRouteRead emptyClient (world0 stored) = Returned [] w'
    /\ Id (data w') = EmptyString
    /\ attrs (data w') = attrs stored
    /\ remote w' = tt
    /\ calls w' = [CallList (listQuery "acct1" "192.168.0.0/26" EmptyString)].
Proof.
  apply (Read_not_found_clears_id emptyClient (world0 stored)
           "acct1" "192.168.0.0/26" EmptyString tt); reflexivity.
Defined.

Lemma Read_copies_first_route_witness :
  exists w',
    resourceCloudflareTunnelRouteRead echoClient (world0 stored) = Returned [] w'
    /\ Id (data w') = "192.168.0.0/26"
    /\ attrs (data w') !! "tunnel_id" = Some (VString "tun1")
    /\ attrs (data w') !! "network" = Some (VString "192.168.0.0/26")
    /\ attrs (data w') !! "comment" = Some (VString "kept locally")
    /\ attrs (data w') !! "virtual_network_id" = None.
Proof.
  destruct (Read_copies_first_route echoClient (world0 stored)
              "acct1" "192.168.0.0/26" EmptyString tt
              (route "192.168.0.0/26" "tun1" EmptyString "vnet-default") []
              eq_refl eq_refl eq_refl eq_refl)
    as (w' & HR & Hid & Ht & Hn & Hc & Hv & _).
  exists w'. repeat split; assumption.
Defined.

Lemma Read_twice_when_answer_repeats_witness :
  resourceCloudflareTunnelRouteRead echoClient (world0 stored)
  = Returned [] stored_read
  /\ exists w2,
       resourceCloudflareTunnelRouteRead echoClient stored_read = Returned [] w2
       /\ data w2 = data stored_read.
Proof.
  split; [reflexivity|].
  apply (Read_twice_when_answer_repeats echoClient (world0 stored)
           stored_read []); reflexivity.
Defined.

(** C9 as stated fails: [driftClient] lists by a fixed function of the query
    and keeps no state, yet the first Read leaves the identifier in place and
    the second one clears it. *)
Lemma Read_twice_counterexample :
  resourceCloudflareTunnelRouteRead driftClient (world0 drifting)
  = Returned [] drifting_read
  /\ resourceCloudflareTunnelRouteRead driftClient drifting_read
     = Returned [] drifting_read_twice
  /\ Id (data drifting_read) = "10.0.0.0/8"
  /\ Id (data drifting_read_twice) = EmptyString
  /\ data drifting_read_twice <> data drifting_read.
Proof.
  split; [vm_compute; reflexivity|]. split; [vm_compute; reflexivity|].
  split; [reflexivity|]. split; [reflexivity|].
  intros H. apply (f_equal Id) in H. discriminate H.
Qed.

Lemma Create_sets_id_then_reads_witness :
  exists id,
    resourceCloudflareTunnelRouteCreate echoClient (world0 desired)
    = resourceCloudflareTunnelRouteRead echoClient
        {| data := SetId id desired;
           remote := tt;
           calls := [CallCreate (createRequest "acct1" "tun1" "10.1.2.3/8"
                                   EmptyString "vnet1")] |}
    /\ ("vnet1" = EmptyString -> id = "10.0.0.0/8")
    /\ ("vnet1" <> EmptyString -> id = "10.0.0.0/8/vnet1").
Proof.
  apply (Create_sets_id_then_reads echoClient (world0 desired)
           "acct1" "tun1" "10.1.2.3/8" "vnet1" tt
           (route "10.0.0.0/8" "tun1" EmptyString "vnet-default"));
    reflexivity.
Defined.

(** C3 as stated fails: the record asks for network 10.1.2.3/8, the remote
    answers the create call with 10.0.0.0/8, and the identifier is built from
    the latter. *)
Lemma Create_id_not_from_desired_network_counterexample :
  Get desired "network" = VString "10.1.2.3/8"
  /\ Get desired "virtual_network_id" = VString "vnet1"
  /\ resourceCloudflareTunnelRouteCreate echoClient (world0 desired)
     = resourceCloudflareTunnelRouteRead echoClient
         {| data := SetId "10.0.0.0/8/vnet1" desired;
            remote := tt;
            calls := [CallCreate (createRequest "acct1" "tun1" "10.1.2.3/8"
                                    EmptyString "vnet1")] |}
  /\ resourceCloudflareTunnelRouteCreate echoClient (world0 desired)
     = Returned [] desired_created
  /\ Id (data desired_created) = "10.0.0.0/8/vnet1"
  /\ Id (data desired_created) <> "10.1.2.3/8" +:+ "/" +:+ "vnet1".
Proof.
  split; [reflexivity|]. split; [reflexivity|].
  split; [vm_compute; reflexivity|]. split; [vm_compute; reflexivity|].
  split; [reflexivity|]. discriminate.
Qed.

Lemma Create_id_uses_response_network_witness :
  exists ws,
    resourceCloudflareTunnelRouteCreate echoClient (world0 desired)
    = resourceCloudflareTunnelRouteRead echoClient ws
    /\ Id (data ws) = "10.0.0.0/8/vnet1"
    /\ Get (data ws) "network" = VString "10.1.2.3/8"
    /\ (forall diags w',
          resourceCloudflareTunnelRouteCreate echoClient (world0 desired)
          = Returned diags w' ->
          Id (data w') = "10.0.0.0/8/vnet1"
          \/ (Id (data w') = EmptyString /\ diags = [])).
Proof.
  apply (Create_id_uses_response_network echoClient (world0 desired)
           "acct1" "tun1" "10.1.2.3/8" "vnet1" tt
           (route "10.0.0.0/8" "tun1" EmptyString "vnet-default"));
    reflexivity.
Defined.

Lemma Update_sends_full_field_set_witness :
  resourceCloudflareTunnelRouteUpdate echoClient (world0 desired)
  = resourceCloudflareTunnelRouteRead echoClient
      {| data := desired;
         remote := tt;
         calls := [CallUpdate (updateRequest "acct1" "tun1" "10.1.2.3/8"
                                 EmptyString "vnet1")] |}
  /\ (attrs desired !! "comment" = None -> EmptyString = EmptyString).
Proof.
  apply (Update_sends_full_field_set echoClient (world0 desired)
           "acct1" "tun1" "10.1.2.3/8" "vnet1" tt
           (Ok (route "10.0.0.0/8" "tun1" EmptyString "vnet-default")));
    reflexivity.
Defined.

(** C6 as stated fails: against a remote that treats an update as a patch,
    Update of a record without comment sends the empty comment and returns
    without diagnostic, yet the remote comment is not cleared (and the Read
    that follows copies it into the record). *)
Lemma Update_absent_comment_counterexample :
  attrs desired !! "comment" = None
  /\ resourceCloudflareTunnelRouteUpdate patchingClient commented_world
     = Returned [] patched_world
  /\ calls patched_world
     = [CallUpdate (updateRequest "acct1" "tun1" "10.1.2.3/8" EmptyString "vnet1");
        CallList (listQuery "acct1" "10.1.2.3/8" "vnet1")]
  /\ remote commented_world = "set earlier"
  /\ remote patched_world = "set earlier"
  /\ remote patched_world <> EmptyString
  /\ attrs (data patched_world) !! "comment" = Some (VString "set earlier").
Proof.
  split; [reflexivity|]. split; [vm_compute; reflexivity|].
  split; [reflexivity|]. split; [reflexivity|]. split; [reflexivity|].
  split; [discriminate|reflexivity].
Qed.

Lemma Import_rejects_short_id_witness :
  resourceCloudflareTunnelRouteImport emptyClient (world0 (importing "bad-id"))
  = Returned ([], Some (Errorf invalid_id_format [ArgQ "bad-id"]))
      (world0 (importing "bad-id"))
  /\ is_Some (String.index 0 (dq +:+ "accountID/network" +:+ dq)
               invalid_id_format)
  /\ is_Some (String.index 0
               (dq +:+ "accountID/network/virtual_network_id" +:+ dq)
               invalid_id_format).
Proof.
  apply (Import_rejects_short_id emptyClient (world0 (importing "bad-id"))).
  vm_compute. lia.
Defined.

(** C1 as stated fails on its own five-segment example: [strings.SplitN]
    with limit 4 cuts [a/b/c/d/e] into four pieces, so Import takes the
    four-piece branch instead of returning the format error. *)
Lemma Import_five_segments_counterexample :
  segments "a/b/c/d/e" = 5
  /\ SplitN "a/b/c/d/e" "/"%char 4 = ["a"; "b"; "c"; "d/e"]
  /\ resourceCloudflareTunnelRouteImport emptyClient
       (world0 (importing "a/b/c/d/e"))
     = Panicked (PanicIndexOutOfRange 4 4) (world0 (importing "a/b/c/d/e"))
  /\ resourceCloudflareTunnelRouteImport emptyClient
       (world0 (importing "a/b/c/d/e"))
     <> Returned ([], Some (Errorf invalid_id_format [ArgQ "a/b/c/d/e"]))
          (world0 (importing "a/b/c/d/e")).
Proof.
  split; [reflexivity|]. split; [reflexivity|]. split; [reflexivity|].
  discriminate.
Qed.

Lemma Import_four_pieces_panics_witness :
  resourceCloudflareTunnelRouteImport echoClient
    (world0 (importing "acct1/192.168.0.0/26/vnet1"))
  = Panicked (PanicIndexOutOfRange 4 4)
      (world0 (importing "acct1/192.168.0.0/26/vnet1"))
  /\ (forall res w',
        resourceCloudflareTunnelRouteImport echoClient
          (world0 (importing "acct1/192.168.0.0/26/vnet1"))
        <> Returned res w').
Proof.
  apply (Import_four_pieces_panics echoClient
           (world0 (importing "acct1/192.168.0.0/26/vnet1"))).
  reflexivity.
Defined.

Lemma Import_three_pieces_witness :
  exists ws,
    resourceCloudflareTunnelRouteImport echoClient
      (world0 (importing "acct1/192.168.0.0/26"))
    = import_result (resourceCloudflareTunnelRouteRead echoClient ws)
    /\ Id (data ws) = "192.168.0.0/26"
    /\ Get (data ws) "network" = VString "192.168.0.0/26"
    /\ Get (data ws) "account_id" = VString "acct1"
    /\ attrs (data ws) !! "virtual_network_id" = None.
Proof.
  destruct (Import_three_pieces echoClient
              (world0 (importing "acct1/192.168.0.0/26"))
              "acct1" "192.168.0.0" "26" eq_refl)
    as (ws & HI & Hid & Hn & Ha & Hv & _).
  exists ws. repeat split; assumption.
Defined.

Lemma Import_read_failure_is_generic_witness :
  resourceCloudflareTunnelRouteImport failingClient
    (world0 (importing "acct1/192.168.0.0/26"))
  = Returned ([], Some (ErrorsNew "failed to read Tunnel Route state"))
      {| data := imported "acct1" "192.168.0.0" "26"
                   (importing "acct1/192.168.0.0/26");
         remote := tt;
         calls := [CallList (listQuery "acct1" "192.168.0.0/26" EmptyString)] |}
  /\ Unwrap (ErrorsNew "failed to read Tunnel Route state") = None.
Proof.
  apply (Import_read_failure_is_generic failingClient
           (world0 (importing "acct1/192.168.0.0/26")) _
           "acct1" "192.168.0.0" "26"
           (Errorf "failed to fetch Tunnel Route: %w" [ArgW unavailable]) []);
    reflexivity.
Defined.

(** * Identifiers cut in three *)

Lemma cut_Some_spec sep s x y :
  cut sep s = Some (x, y) -> s = x +:+ String sep y /\ Count x sep = 0.
Proof.
  revert x; induction s as [|ch s IH]; simpl; intros x; [discriminate|].
  destruct (Ascii.eqb_spec ch sep) as [->|Hne].
  - intros [= <- <-]. split; reflexivity.
  - destruct (cut sep s) as [[x' y']|]; [|discriminate].
    intros [= <- <-]. destruct (IH x' eq_refl) as [-> Hx]. split.
    + reflexivity.
    + simpl. destruct (Ascii.eqb_spec ch sep); [contradiction|exact Hx].
Qed.

Lemma cut_app sep x y :
  Count x sep = 0 -> cut sep (x +:+ String sep y) = Some (x, y).
Proof.
  induction x as [|ch x IH]; simpl.
  - intros _. now rewrite Ascii.eqb_refl.
  - destruct (Ascii.eqb ch sep); [discriminate|].
    intros H. now rewrite (IH H).
Qed.

Lemma Count_0_cut sep s : Count s sep = 0 -> cut sep s = None.
Proof.
  induction s as [|ch s IH]; simpl; [reflexivity|].
  destruct (Ascii.eqb ch sep); [discriminate|].
  intros H. now rewrite (IH H).
Qed.

Lemma SplitN4_unfold (id : string) :
  SplitN id "/"%char 4
  = match cut "/"%char id with
    | None => [id]
    | Some (x, r1) =>
        x :: match cut "/"%char r1 with
             | None => [r1]
             | Some (y, r2) =>
                 y :: match cut "/"%char r2 with
                      | None => [r2]
                      | Some (z, r3) => [z; r3]
                      end
             end
    end.
Proof. reflexivity. Qed.

Lemma SplitN_three_inv (id a b c : string) :
  SplitN id "/"%char 4 = [a; b; c] ->
  id = a +:+ "/" +:+ b +:+ "/" +:+ c
  /\ Count a "/"%char = 0 /\ Count b "/"%char = 0 /\ Count c "/"%char = 0.
Proof.
  rewrite SplitN4_unfold.
  destruct (cut "/"%char id) as [[x r1]|] eqn:E1; [|discriminate].
  destruct (cut "/"%char r1) as [[y r2]|] eqn:E2; [|discriminate].
  destruct (cut "/"%char r2) as [[z r3]|] eqn:E3; [discriminate|].
  intros [= <- <- <-].
  apply cut_Some_spec in E1 as [-> Hx]. apply cut_Some_spec in E2 as [-> Hy].
  apply cut_None_Count in E3. repeat split; assumption.
Qed.

(** X12: Import's split yields exactly three pieces [a], [b], [c] if and
    only if the identifier is [a/b/c] with no slash inside [a], [b] or [c];
    so the account and network that Import reconstructs always rejoin to the
    identifier it was given. *)
Theorem SplitN_three_pieces_iff (id a b c : string) :
  SplitN id "/"%char 4 = [a; b; c]
  <-> id = a +:+ "/" +:+ b +:+ "/" +:+ c
      /\ Count a "/"%char = 0 /\ Count b "/"%char = 0 /\ Count c "/"%char = 0.
Proof.
  split; [apply SplitN_three_inv|].
  intros (-> & Ha & Hb & Hc). rewrite SplitN4_unfold.
  change (a +:+ "/" +:+ b +:+ "/" +:+ c)
    with (a +:+ String "/"%char (b +:+ String "/"%char c)).
  rewrite (cut_app _ _ _ Ha), (cut_app _ _ _ Hb), (Count_0_cut _ _ Hc).
  reflexivity.
Qed.

(** * The handlers as a whole *)

Section Coverage.
Context {Remote : Type}.
Variable client : API Remote.

Local Abbreviation Read := (resourceCloudflareTunnelRouteRead client).
Local Abbreviation Create := (resourceCloudflareTunnelRouteCreate client).
Local Abbreviation Update := (resourceCloudflareTunnelRouteUpdate client).
Local Abbreviation Delete := (resourceCloudflareTunnelRouteDelete client).
Local Abbreviation Import := (resourceCloudflareTunnelRouteImport client).

(** ** Read *)

(** Read in closed form, for a record whose three queried fields are
    strings. *)
Lemma Read_closed (w : World Remote) a n v :
  Get (data w) "account_id" = VString a ->
  Get (data w) "network" = VString n ->
  Get (data w) "virtual_network_id" = VString v ->
  exists rm listed,
    ListTunnelRoutes client (listQuery a n v) (remote w) = (rm, listed)
    /\ Read w =
       match listed with
       | Err err =>
           Returned [Errorf "failed to fetch Tunnel Route: %w" [ArgW err]]
             (after_call w rm (CallList (listQuery a n v)))
       | Ok [] =>
           Returned []
             (with_data (SetId EmptyString (data w))
                (after_call w rm (CallList (listQuery a n v))))
       | Ok (r :: _) =>
           Returned []
             (with_data (write_back v r (data w))
                (after_call w rm (CallList (listQuery a n v))))
       end.
Proof.
  intros Ha Hn Hv.
  destruct (ListTunnelRoutes client (listQuery a n v) (remote w))
    as [rm listed] eqn:Hl.
  exists rm, listed. split; [reflexivity|].
  rewrite (Read_unfold client w a n v rm listed Ha Hn Hv Hl).
  destruct listed as [[|r rest]|err]; reflexivity.
Qed.

(** X1: when the list call fails, Read returns a single diagnostic that
    wraps the remote error, and leaves the identifier and every field as
    they were. *)
Theorem Read_list_failure (w : World Remote) a n v rm err :
  Get (data w) "account_id" = VString a ->
  Get (data w) "network" = VString n ->
  Get (data w) "virtual_network_id" = VString v ->
  ListTunnelRoutes client (listQuery a n v) (remote w) = (rm, Err err) ->
  exists e w',
    Read w = Returned [e] w'
    /\ e = Errorf "failed to fetch Tunnel Route: %w" [ArgW err]
    /\ Unwrap e = Some err
    /\ data w' = data w
    /\ remote w' = rm
    /\ calls w' = (calls w ++ [CallList (listQuery a n v)])%list.
Proof.
  intros Ha Hn Hv Hl. do 2 eexists. split.
  - rewrite (Read_unfold client w a n v rm _ Ha Hn Hv Hl). reflexivity.
  - repeat split.
Qed.

(** X2: a Read that returns has made exactly one remote call, a list call
    for routes that are not deleted, in the record's account, whose network
    is both contained in and containing the record's network, filtered by
    the record's virtual network id. *)
Theorem Read_makes_one_exact_match_query (w w' : World Remote) diags :
  Read w = Returned diags w' ->
  exists q,
    calls w' = (calls w ++ [CallList q])%list
    /\ Get (data w) "account_id" = VString (TunnelRoutesListParams.AccountID q)
    /\ Get (data w) "network" = VString (TunnelRoutesListParams.NetworkSubset q)
    /\ TunnelRoutesListParams.NetworkSuperset q
       = TunnelRoutesListParams.NetworkSubset q
    /\ Get (data w) "virtual_network_id"
       = VString (TunnelRoutesListParams.VirtualNetworkID q)
    /\ TunnelRoutesListParams.IsDeleted q = Some false.
Proof.
  intros H.
  destruct (Read_returns_inv client _ _ _ H) as (a & n & v & Ha & Hn & Hv).
  destruct (Read_closed w a n v Ha Hn Hv) as (rm & listed & _ & E).
  exists (listQuery a n v). rewrite E in H.
  destruct listed as [[|r rest]|err]; injection H as <- <-;
    repeat split; assumption.
Qed.

(** ** Inverting and closing the other handlers *)

Lemma bind_get_string_inv {B} key (k : string -> M Remote B)
    (w w' : World Remote) b :
  (let! x := get_string key in k x) w = Returned b w' ->
  exists s, Get (data w) key = VString s /\ k s w = Returned b w'.
Proof.
  intros H.
  destruct (string_or_not (Get (data w) key)) as [[s Hs]|Hs].
  - exists s. split; [exact Hs|]. now rewrite (bind_get_string _ _ _ _ Hs) in H.
  - rewrite (bind_get_string_panic _ _ _ Hs) in H. discriminate.
Qed.

Lemma Create_returns_inv (w w' : World Remote) diags :
  Create w = Returned diags w' ->
  exists a t n v,
    Get (data w) "virtual_network_id" = VString v
    /\ Get (data w) "account_id" = VString a
    /\ Get (data w) "tunnel_id" = VString t
    /\ Get (data w) "network" = VString n.
Proof.
  intros H. unfold resourceCloudflareTunnelRouteCreate in H.
  apply bind_get_string_inv in H as (v & Hv & H).
  apply bind_get_string_inv in H as (a & Ha & H).
  apply bind_get_string_inv in H as (t & Ht & H).
  apply bind_get_string_inv in H as (n & Hn & H).
  eauto 8.
Qed.

Lemma Update_returns_inv (w w' : World Remote) diags :
  Update w = Returned diags w' ->
  exists a t n v,
    Get (data w) "account_id" = VString a
    /\ Get (data w) "tunnel_id" = VString t
    /\ Get (data w) "network" = VString n
    /\ Get (data w) "virtual_network_id" = VString v.
Proof.
  intros H. unfold resourceCloudflareTunnelRouteUpdate in H.
  apply bind_get_string_inv in H as (a & Ha & H).
  apply bind_get_string_inv in H as (t & Ht & H).
  apply bind_get_string_inv in H as (n & Hn & H).
  apply bind_get_string_inv in H as (v & Hv & H).
  eauto 8.
Qed.

(** Delete in closed form. *)
Lemma Delete_unfold (w : World Remote) a n v rm deleted :
  Get (data w) "network" = VString n ->
  Get (data w) "account_id" = VString a ->
  Get (data w) "virtual_network_id" = VString v ->
  DeleteTunnelRoute client (deleteRequest a n v) (remote w) = (rm, deleted) ->
  Delete w =
  Returned
    match deleted with
    | Some err =>
        [Errorf "error deleting Tunnel Route for Network %q: %w"
           [ArgQ n; ArgW err]]
    | None => []
    end
    (after_call w rm (CallDelete (deleteRequest a n v))).
Proof.
  intros Hn Ha Hv Hd. unfold resourceCloudflareTunnelRouteDelete.
  rewrite (bind_get_string _ _ _ _ Hn).
  rewrite (bind_get_string _ _ _ _ Ha).
  rewrite (bind_get_string _ _ _ _ Hv).
  change (TunnelRoutesDeleteParams.Build a n v) with (deleteRequest a n v).
  cbv zeta. rewrite (bind_remote_call _ _ _ _ _ _ _ Hd).
  destruct deleted; reflexivity.
Qed.

Lemma Delete_returns_inv (w w' : World Remote) diags :
  Delete w = Returned diags w' ->
  exists a n v,
    Get (data w) "network" = VString n
    /\ Get (data w) "account_id" = VString a
    /\ Get (data w) "virtual_network_id" = VString v.
Proof.
  intros H. unfold resourceCloudflareTunnelRouteDelete in H.
  apply bind_get_string_inv in H as (n & Hn & H).
  apply bind_get_string_inv in H as (a & Ha & H).
  apply bind_get_string_inv in H as (v & Hv & H).
  eauto 6.
Qed.

(** Create and Update in closed form. *)
Lemma Create_closed (w : World Remote) a t n v :
  Get (data w) "virtual_network_id" = VString v ->
  Get (data w) "account_id" = VString a ->
  Get (data w) "tunnel_id" = VString t ->
  Get (data w) "network" = VString n ->
  exists rm created,
    CreateTunnelRoute client (createRequest a t n (comment_of (data w)) v)
      (remote w) = (rm, created)
    /\ Create w =
       let wc := after_call w rm
                   (CallCreate (createRequest a t n (comment_of (data w)) v)) in
       match created with
       | Err err =>
           Returned [Errorf "error creating Tunnel Route for Network %q: %w"
                       [ArgQ n; ArgW err]] wc
       | Ok r =>
           Read (with_data
                   (SetId (created_id (TunnelRoute.Network r) v) (data w)) wc)
       end.
Proof.
  intros Hv Ha Ht Hn.
  destruct (CreateTunnelRoute client
              (createRequest a t n (comment_of (data w)) v) (remote w))
    as [rm created] eqn:Hc.
  exists rm, created. split; [reflexivity|].
  rewrite (Create_unfold client w a t n v rm created Hv Ha Ht Hn Hc).
  destruct created; reflexivity.
Qed.

Lemma Update_closed (w : World Remote) a t n v :
  Get (data w) "account_id" = VString a ->
  Get (data w) "tunnel_id" = VString t ->
  Get (data w) "network" = VString n ->
  Get (data w) "virtual_network_id" = VString v ->
  exists rm updated,
    UpdateTunnelRoute client (updateRequest a t n (comment_of (data w)) v)
      (remote w) = (rm, updated)
    /\ Update w =
       let wu := after_call w rm
                   (CallUpdate (updateRequest a t n (comment_of (data w)) v)) in
       match updated with
       | Err err =>
           Returned [Errorf "error updating Tunnel Route for Network %q: %w"
                       [ArgQ n; ArgW err]] wu
       | Ok _ => Read wu
       end.
Proof.
  intros Ha Ht Hn Hv.
  destruct (UpdateTunnelRoute client
              (updateRequest a t n (comment_of (data w)) v) (remote w))
    as [rm updated] eqn:Hu.
  exists rm, updated. split; [reflexivity|].
  rewrite (Update_unfold client w a t n v rm updated Ha Ht Hn Hv Hu).
  destruct updated; reflexivity.
Qed.

(** What any returning Read has done. *)
Lemma Read_effect (w w' : World Remote) diags :
  Read w = Returned diags w' ->
  (diags = [] \/ exists e cause, diags = [e] /\ Unwrap e = Some cause)
  /\ (forall key, key <> "tunnel_id" -> key <> "network" -> key <> "comment" ->
        key <> "virtual_network_id" ->
        attrs (data w') !! key = attrs (data w) !! key)
  /\ (exists q, calls w' = (calls w ++ [CallList q])%list).
Proof.
  intros H.
  destruct (Read_returns_inv client _ _ _ H) as (a & n & v & Ha & Hn & Hv).
  destruct (Read_closed w a n v Ha Hn Hv) as (rm & listed & _ & E).
  rewrite E in H.
  destruct listed as [[|r rest]|err]; injection H as <- <-.
  - split; [now left|]. split; [reflexivity|]. eexists; reflexivity.
  - split; [now left|]. split; [|eexists; reflexivity].
    intros key ? ? ? ?. cbn [data with_data]. rewrite attrs_write_back.
    by_cases.
  - split; [right; eauto|]. split; [reflexivity|]. eexists; reflexivity.
Qed.

Lemma Read_returns (w : World Remote) a n v :
  Get (data w) "account_id" = VString a ->
  Get (data w) "network" = VString n ->
  Get (data w) "virtual_network_id" = VString v ->
  exists diags w', Read w = Returned diags w'.
Proof.
  intros Ha Hn Hv.
  destruct (Read_closed w a n v Ha Hn Hv) as (rm & listed & _ & E).
  rewrite E. destruct listed as [[|r rest]|err]; eauto.
Qed.

(** ** All four reconciling handlers *)

(** X3: on a record whose schema fields all read as strings, Read, Create,
    Update and Delete return: no type assertion fails, and Read's
    [tunnelRoutes[0]] is only reached on a non-empty listing. *)
Theorem handlers_return_on_typed_record (w : World Remote) :
  schema_typed (data w) ->
  (exists diags w', Read w = Returned diags w')
  /\ (exists diags w', Create w = Returned diags w')
  /\ (exists diags w', Update w = Returned diags w')
  /\ (exists diags w', Delete w = Returned diags w').
Proof.
  intros Hty.
  destruct (Hty "account_id" eq_refl) as [a Ha].
  destruct (Hty "tunnel_id" eq_refl) as [t Ht].
  destruct (Hty "network" eq_refl) as [n Hn].
  destruct (Hty "virtual_network_id" eq_refl) as [v Hv].
  split; [apply (Read_returns w a n v Ha Hn Hv)|].
  split; [|split].
  - destruct (Create_closed w a t n v Hv Ha Ht Hn) as (rm & created & _ & E).
    rewrite E. cbv zeta. destruct created as [r|err]; [|eauto].
    eapply Read_returns; [exact Ha|exact Hn|exact Hv].
  - destruct (Update_closed w a t n v Ha Ht Hn Hv) as (rm & updated & _ & E).
    rewrite E. cbv zeta. destruct updated as [r|err]; [|eauto].
    eapply Read_returns; [exact Ha|exact Hn|exact Hv].
  - destruct (DeleteTunnelRoute client (deleteRequest a n v) (remote w))
      as [rm deleted] eqn:Hd.
    rewrite (Delete_unfold w a n v rm deleted Hn Ha Hv Hd). eauto.
Qed.

(** What any returning Create, Update or Delete has done to the fields and
    which diagnostics it can return. *)
Lemma Create_effect (w w' : World Remote) diags :
  Create w = Returned diags w' ->
  (diags = [] \/ exists e cause, diags = [e] /\ Unwrap e = Some cause)
  /\ (forall key, key <> "tunnel_id" -> key <> "network" -> key <> "comment" ->
        key <> "virtual_network_id" ->
        attrs (data w') !! key = attrs (data w) !! key).
Proof.
  intros H.
  destruct (Create_returns_inv _ _ _ H) as (a & t & n & v & Hv & Ha & Ht & Hn).
  destruct (Create_closed w a t n v Hv Ha Ht Hn) as (rm & created & _ & E).
  rewrite E in H. cbv zeta in H. destruct created as [r|err].
  - apply Read_effect in H as (Hd & Hf & _). split; [exact Hd|exact Hf].
  - injection H as <- <-. split; [right; eauto|reflexivity].
Qed.

Lemma Update_effect (w w' : World Remote) diags :
  Update w = Returned diags w' ->
  (diags = [] \/ exists e cause, diags = [e] /\ Unwrap e = Some cause)
  /\ (forall key, key <> "tunnel_id" -> key <> "network" -> key <> "comment" ->
        key <> "virtual_network_id" ->
        attrs (data w') !! key = attrs (data w) !! key)
  /\ (Id (data w') = Id (data w) \/ (Id (data w') = EmptyString /\ diags = [])).
Proof.
  intros H.
  destruct (Update_returns_inv _ _ _ H) as (a & t & n & v & Ha & Ht & Hn & Hv).
  destruct (Update_closed w a t n v Ha Ht Hn Hv) as (rm & updated & _ & E).
  rewrite E in H. cbv zeta in H. destruct updated as [r|err].
  - pose proof (Read_Id client _ _ _ H) as Hid.
    apply Read_effect in H as (Hd & Hf & _). auto.
  - injection H as <- <-. split; [right; eauto|]. split; [reflexivity|now left].
Qed.

Lemma Delete_effect (w w' : World Remote) diags :
  Delete w = Returned diags w' ->
  (diags = [] \/ exists e cause, diags = [e] /\ Unwrap e = Some cause)
  /\ data w' = data w.
Proof.
  intros H.
  destruct (Delete_returns_inv _ _ _ H) as (a & n & v & Hn & Ha & Hv).
  destruct (DeleteTunnelRoute client (deleteRequest a n v) (remote w))
    as [rm deleted] eqn:Hd.
  rewrite (Delete_unfold w a n v rm deleted Hn Ha Hv Hd) in H.
  injection H as <- <-. split; [|reflexivity].
  destruct deleted; [right; eauto|now left].
Qed.

(** X4: none of Read, Create, Update and Delete writes [account_id]; it is
    only ever read, to scope the remote calls. *)
Theorem account_id_is_never_rewritten (w w' : World Remote) diags :
  Read w = Returned diags w' \/ Create w = Returned diags w'
  \/ Update w = Returned diags w' \/ Delete w = Returned diags w' ->
  attrs (data w') !! "account_id" = attrs (data w) !! "account_id".
Proof.
  intros [H|[H|[H|H]]].
  - apply Read_effect in H as (_ & Hf & _). now apply Hf.
  - apply Create_effect in H as (_ & Hf). now apply Hf.
  - apply Update_effect in H as (_ & Hf & _). now apply Hf.
  - apply Delete_effect in H as (_ & ->). reflexivity.
Qed.

(** The diagnostic of a returning Read, tied to its list call. *)
Lemma Read_diagnostic (w w' : World Remote) diags :
  Read w = Returned diags w' ->
  diags = []
  \/ exists e cause c,
       diags = [e] /\ Unwrap e = Some cause
       /\ run_call client c (remote w) = (remote w', Some cause)
       /\ calls w' = (calls w ++ [c])%list.
Proof.
  intros H.
  destruct (Read_returns_inv client _ _ _ H) as (a & n & v & Ha & Hn & Hv).
  destruct (Read_closed w a n v Ha Hn Hv) as (rm & listed & Hl & E).
  rewrite E in H.
  destruct listed as [[|r rest]|err]; injection H as <- <-;
    [now left|now left|].
  right. exists (Errorf "failed to fetch Tunnel Route: %w" [ArgW err]), err,
           (CallList (listQuery a n v)).
  repeat split. cbn [run_call]. now rewrite Hl.
Qed.

(** X5: whatever Read, Create, Update or Delete returns is either no
    diagnostic or exactly one, and that one wraps the very error returned by
    the last remote call the handler made: its only call, run on the remote
    state it started from, or its second call, run on the state left by a
    first call that did not fail. *)
Theorem diagnostics_wrap_the_remote_error (w w' : World Remote) diags :
  Read w = Returned diags w' \/ Create w = Returned diags w'
  \/ Update w = Returned diags w' \/ Delete w = Returned diags w' ->
  diags = []
  \/ exists e cause c rm,
       diags = [e] /\ Unwrap e = Some cause
       /\ run_call client c rm = (remote w', Some cause)
       /\ ((rm = remote w /\ calls w' = (calls w ++ [c])%list)
           \/ exists c0,
                run_call client c0 (remote w) = (rm, None)
                /\ calls w' = (calls w ++ [c0; c])%list).
Proof.
  intros [H|[H|[H|H]]].
  - apply Read_diagnostic in H as [->|(e & cause & c & -> & Hu & Hr & Hc)];
      [now left|right].
    exists e, cause, c, (remote w). repeat split; try assumption.
    left. split; [reflexivity|exact Hc].
  - destruct (Create_returns_inv _ _ _ H) as (a & t & n & v & Hv & Ha & Ht & Hn).
    destruct (Create_closed w a t n v Hv Ha Ht Hn) as (rm & created & Hc & E).
    rewrite E in H. cbv zeta in H. destruct created as [r|err].
    + apply Read_diagnostic in H as [->|(e & cause & c & -> & Hu & Hr & Hl)];
        [now left|right].
      exists e, cause, c, rm. repeat split; try assumption.
      right. exists (CallCreate (createRequest a t n (comment_of (data w)) v)).
      split; [cbn [run_call]; now rewrite Hc|].
      rewrite Hl. cbn [calls with_data after_call]. now rewrite <- app_assoc.
    + injection H as <- <-. right.
      exists (Errorf "error creating Tunnel Route for Network %q: %w"
                [ArgQ n; ArgW err]), err,
             (CallCreate (createRequest a t n (comment_of (data w)) v)),
             (remote w).
      repeat split; [cbn [run_call]; now rewrite Hc|].
      left. split; reflexivity.
  - destruct (Update_returns_inv _ _ _ H) as (a & t & n & v & Ha & Ht & Hn & Hv).
    destruct (Update_closed w a t n v Ha Ht Hn Hv) as (rm & updated & Hu' & E).
    rewrite E in H. cbv zeta in H. destruct updated as [r|err].
    + apply Read_diagnostic in H as [->|(e & cause & c & -> & Hu & Hr & Hl)];
        [now left|right].
      exists e, cause, c, rm. repeat split; try assumption.
      right. exists (CallUpdate (updateRequest a t n (comment_of (data w)) v)).
      split; [cbn [run_call]; now rewrite Hu'|].
      rewrite Hl. cbn [calls after_call]. now rewrite <- app_assoc.
    + injection H as <- <-. right.
      exists (Errorf "error updating Tunnel Route for Network %q: %w"
                [ArgQ n; ArgW err]), err,
             (CallUpdate (updateRequest a t n (comment_of (data w)) v)),
             (remote w).
      repeat split; [cbn [run_call]; now rewrite Hu'|].
      left. split; reflexivity.
  - destruct (Delete_returns_inv _ _ _ H) as (a & n & v & Hn & Ha & Hv).
    destruct (DeleteTunnelRoute client (deleteRequest a n v) (remote w))
      as [rm deleted] eqn:Hd.
    rewrite (Delete_unfold w a n v rm deleted Hn Ha Hv Hd) in H.
    injection H as <- <-. destruct deleted as [err|]; [right|now left].
    exists (Errorf "error deleting Tunnel Route for Network %q: %w"
              [ArgQ n; ArgW err]), err,
           (CallDelete (deleteRequest a n v)), (remote w).
    repeat split; [exact Hd|]. left. split; reflexivity.
Qed.

(** ** Delete *)

(** X6: Delete makes exactly one remote call, the delete of the route keyed
    by the record's account, network and virtual network id, without looking
    the route up first; it never writes the record; it returns no diagnostic
    when the call succeeds and the wrapped error, with the network as its
    [%q] operand, when it fails. *)
Theorem Delete_sends_key_and_writes_nothing (w : World Remote) a n v rm deleted :
  Get (data w) "network" = VString n ->
  Get (data w) "account_id" = VString a ->
  Get (data w) "virtual_network_id" = VString v ->
  DeleteTunnelRoute client (deleteRequest a n v) (remote w) = (rm, deleted) ->
  exists diags w',
    Delete w = Returned diags w'
    /\ data w' = data w
    /\ remote w' = rm
    /\ calls w' = (calls w ++ [CallDelete (deleteRequest a n v)])%list
    /\ (deleted = None -> diags = [])
    /\ (forall err, deleted = Some err ->
          diags = [Errorf "error deleting Tunnel Route for Network %q: %w"
                     [ArgQ n; ArgW err]]).
Proof.
  intros Hn Ha Hv Hd. do 2 eexists. split.
  - apply (Delete_unfold w a n v rm deleted Hn Ha Hv Hd).
  - repeat split.
    + now intros ->.
    + now intros err ->.
Qed.

(** ** Create and Update *)

(** X7: when the remote create call fails, Create returns the wrapped error
    (network as [%q] operand, cause wrapped), sets neither the identifier nor
    any field, and does not run Read: the create call is its only remote
    call. *)
Theorem Create_failure_leaves_record (w : World Remote) a t n v rm err :
  Get (data w) "virtual_network_id" = VString v ->
  Get (data w) "account_id" = VString a ->
  Get (data w) "tunnel_id" = VString t ->
  Get (data w) "network" = VString n ->
  CreateTunnelRoute client (createRequest a t n (comment_of (data w)) v)
    (remote w) = (rm, Err err) ->
  exists e w',
    Create w = Returned [e] w'
    /\ e = Errorf "error creating Tunnel Route for Network %q: %w"
             [ArgQ n; ArgW err]
    /\ Unwrap e = Some err
    /\ data w' = data w
    /\ calls w' = (calls w ++ [CallCreate
                                 (createRequest a t n (comment_of (data w)) v)])%list.
Proof.
  intros Hv Ha Ht Hn Hc. do 2 eexists. split.
  - rewrite (Create_unfold client w a t n v rm _ Hv Ha Ht Hn Hc). reflexivity.
  - repeat split.
Qed.

(** X8: on the same record Create and Update send the same five fields; in
    particular both send the stored comment when it is a string and the
    empty comment otherwise. *)
Theorem Create_and_Update_send_same_fields
    (w wc wu : World Remote) dc du :
  Create w = Returned dc wc ->
  Update w = Returned du wu ->
  exists pc pu lc lu,
    calls wc = (calls w ++ CallCreate pc :: lc)%list
    /\ calls wu = (calls w ++ CallUpdate pu :: lu)%list
    /\ TunnelRoutesCreateParams.AccountID pc
       = TunnelRoutesUpdateParams.AccountID pu
    /\ TunnelRoutesCreateParams.TunnelID pc
       = TunnelRoutesUpdateParams.TunnelID pu
    /\ TunnelRoutesCreateParams.Network pc
       = TunnelRoutesUpdateParams.Network pu
    /\ TunnelRoutesCreateParams.VirtualNetworkID pc
       = TunnelRoutesUpdateParams.VirtualNetworkID pu
    /\ TunnelRoutesCreateParams.Comment pc
       = TunnelRoutesUpdateParams.Comment pu
    /\ TunnelRoutesCreateParams.Comment pc
       = match Get (data w) "comment" with
         | VString c => c
         | _ => EmptyString
         end.
Proof.
  intros HC HU.
  destruct (Create_returns_inv _ _ _ HC) as (a & t & n & v & Hv & Ha & Ht & Hn).
  destruct (Create_closed w a t n v Hv Ha Ht Hn) as (rmc & created & _ & EC).
  destruct (Update_closed w a t n v Ha Ht Hn Hv) as (rmu & updated & _ & EU).
  rewrite EC in HC. rewrite EU in HU. cbv zeta in HC, HU.
  exists (createRequest a t n (comment_of (data w)) v),
         (updateRequest a t n (comment_of (data w)) v).
  assert (exists lc, calls wc
            = (calls w ++ CallCreate
                 (createRequest a t n (comment_of (data w)) v) :: lc)%list)
    as [lc Hlc].
  { destruct created as [r|err].
    - apply Read_effect in HC as (_ & _ & q & Hq). exists [CallList q].
      rewrite Hq. cbn [calls with_data after_call].
      now rewrite <- app_assoc.
    - injection HC as <- <-. now exists []. }
  assert (exists lu, calls wu
            = (calls w ++ CallUpdate
                 (updateRequest a t n (comment_of (data w)) v) :: lu)%list)
    as [lu Hlu].
  { destruct updated as [r|err].
    - apply Read_effect in HU as (_ & _ & q & Hq). exists [CallList q].
      rewrite Hq. cbn [calls after_call]. now rewrite <- app_assoc.
    - injection HU as <- <-. now exists []. }
  exists lc, lu. repeat split; assumption.
Qed.

(** X9: when the create call returns route [r] and the list call that
    follows returns [r'] first, Create returns no diagnostic; the identifier
    is built from the network of [r], while the [network] and [tunnel_id]
    fields are those of [r']; the list call queries the record's own network
    [n], not the network of [r]. *)
Theorem Create_then_found (w : World Remote) a t n v rm r rm' r' rest :
  Get (data w) "virtual_network_id" = VString v ->
  Get (data w) "account_id" = VString a ->
  Get (data w) "tunnel_id" = VString t ->
  Get (data w) "network" = VString n ->
  CreateTunnelRoute client (createRequest a t n (comment_of (data w)) v)
    (remote w) = (rm, Ok r) ->
  ListTunnelRoutes client (listQuery a n v) rm = (rm', Ok (r' :: rest)) ->
  exists w',
    Create w = Returned [] w'
    /\ Id (data w') = created_id (TunnelRoute.Network r) v
    /\ attrs (data w') !! "network" = Some (VString (TunnelRoute.Network r'))
    /\ attrs (data w') !! "tunnel_id" = Some (VString (TunnelRoute.TunnelID r'))
    /\ remote w' = rm'
    /\ calls w' = (calls w
                    ++ [CallCreate (createRequest a t n (comment_of (data w)) v);
                        CallList (listQuery a n v)])%list.
Proof.
  intros Hv Ha Ht Hn Hc Hl. eexists. split.
  - rewrite (Create_unfold client w a t n v rm _ Hv Ha Ht Hn Hc). cbv zeta.
    rewrite (Read_unfold client
               (with_data (SetId (created_id (TunnelRoute.Network r) v) (data w))
                  (after_call w rm
                     (CallCreate (createRequest a t n (comment_of (data w)) v))))
               a n v rm' _ Ha Hn Hv Hl).
    reflexivity.
  - cbn [data remote calls with_data after_call].
    split; [apply Id_write_back|].
    split; [rewrite attrs_write_back; by_cases|].
    split; [rewrite attrs_write_back; by_cases|].
    split; [reflexivity|]. now rewrite <- app_assoc.
Qed.

(** X10: when the create call succeeds but the list call that follows
    returns no route, Create still returns no diagnostic, and leaves the
    record with an empty identifier and its fields as they were. *)
Theorem Create_then_vanished (w : World Remote) a t n v rm r rm' :
  Get (data w) "virtual_network_id" = VString v ->
  Get (data w) "account_id" = VString a ->
  Get (data w) "tunnel_id" = VString t ->
  Get (data w) "network" = VString n ->
  CreateTunnelRoute client (createRequest a t n (comment_of (data w)) v)
    (remote w) = (rm, Ok r) ->
  ListTunnelRoutes client (listQuery a n v) rm = (rm', Ok []) ->
  exists w',
    Create w = Returned [] w'
    /\ Id (data w') = EmptyString
    /\ attrs (data w') = attrs (data w).
Proof.
  intros Hv Ha Ht Hn Hc Hl. eexists. split.
  - rewrite (Create_unfold client w a t n v rm _ Hv Ha Ht Hn Hc). cbv zeta.
    rewrite (Read_unfold client
               (with_data (SetId (created_id (TunnelRoute.Network r) v) (data w))
                  (after_call w rm
                     (CallCreate (createRequest a t n (comment_of (data w)) v))))
               a n v rm' _ Ha Hn Hv Hl).
    reflexivity.
  - split; reflexivity.
Qed.

(** X11: an Update that returns has left the identifier as it was, or has
    cleared it while reporting no diagnostic (the Read after the update call
    listed no route); Update never sets a new identifier. *)
Theorem Update_keeps_or_clears_identifier (w w' : World Remote) diags :
  Update w = Returned diags w' ->
  Id (data w') = Id (data w) \/ (Id (data w') = EmptyString /\ diags = []).
Proof. intros H. now apply Update_effect in H as (_ & _ & Hid). Qed.

(** ** Read twice *)

(** X13: if the listing depends on the query alone and the first listed
    route echoes the queried network and, when one was asked for, the queried
    virtual network id, a second Read issues the same query and leaves the
    record exactly as the first Read left it. *)
Theorem Read_twice_when_route_echoes (w : World Remote) a n v rm r rest :
  (forall p rm1 rm2,
     snd (ListTunnelRoutes client p rm1) = snd (ListTunnelRoutes client p rm2)) ->
  Get (data w) "account_id" = VString a ->
  Get (data w) "network" = VString n ->
  Get (data w) "virtual_network_id" = VString v ->
  ListTunnelRoutes client (listQuery a n v) (remote w) = (rm, Ok (r :: rest)) ->
  TunnelRoute.Network r = n ->
  (v <> EmptyString -> TunnelRoute.VirtualNetworkID r = v) ->
  exists w1 w2,
    Read w = Returned [] w1
    /\ Read w1 = Returned [] w2
    /\ data w2 = data w1
    /\ calls w2 = (calls w ++ [CallList (listQuery a n v);
                               CallList (listQuery a n v)])%list.
Proof.
  intros Hfix Ha Hn Hv Hl Hnet Hvnet.
  set (w1 := with_data (write_back v r (data w))
               (after_call w rm (CallList (listQuery a n v)))).
  assert (Ha1 : Get (data w1) "account_id" = VString a).
  { rewrite <- Ha. apply Get_congr. cbn [data w1 with_data].
    rewrite attrs_write_back. by_cases. }
  assert (Hn1 : Get (data w1) "network" = VString n).
  { unfold Get. cbn [data w1 with_data]. rewrite attrs_write_back, Hnet.
    by_cases. }
  assert (Hv1 : Get (data w1) "virtual_network_id" = VString v).
  { destruct (String.eqb_spec v EmptyString) as [Ev|Ev].
    - rewrite <- Hv. apply Get_congr. cbn [data w1 with_data].
      rewrite attrs_write_back. by_cases.
    - unfold Get. cbn [data w1 with_data].
      rewrite attrs_write_back, (Hvnet Ev). by_cases. }
  destruct (ListTunnelRoutes client (listQuery a n v) (remote w1))
    as [rm2 listed2] eqn:Hl2.
  assert (listed2 = Ok (r :: rest)) as ->.
  { pose proof (Hfix (listQuery a n v) (remote w1) (remote w)) as E.
    rewrite Hl2, Hl in E. exact E. }
  exists w1, (with_data (write_back v r (data w1))
                (after_call w1 rm2 (CallList (listQuery a n v)))).
  split; [apply (Read_unfold client w a n v rm _ Ha Hn Hv Hl)|].
  split; [apply (Read_unfold client w1 a n v rm2 _ Ha1 Hn1 Hv1 Hl2)|].
  split.
  - cbn [data w1 with_data].
    apply ResourceData_eq; [now rewrite !Id_write_back|].
    intros key. rewrite !attrs_write_back. by_cases.
  - cbn [calls w1 with_data after_call]. now rewrite <- app_assoc.
Qed.

(** ** Import *)

Lemma import_result_inv (read : Res Remote Diagnostics) ds (w' : World Remote) :
  import_result read = Returned (ds, None) w' ->
  read = Returned [] w' /\ ds = [data w'].
Proof.
  destruct read as [[|e diags] w1|p w1]; simpl; [|discriminate..].
  intros [= <- <-]. split; reflexivity.
Qed.

(** Import for an identifier that is not cut in three pieces. *)
Lemma Import_not_three (w : World Remote) :
  length (SplitN (Id (data w)) "/"%char 4) <> 3 ->
  Import w = Returned ([], Some (Errorf invalid_id_format [ArgQ (Id (data w))])) w
  \/ Import w = Panicked (PanicIndexOutOfRange 4 4) w.
Proof.
  intros Hlen. unfold resourceCloudflareTunnelRouteImport. cbv [bind d_Id].
  destruct (SplitN (Id (data w)) "/"%char 4)
    as [|a0 [|a1 [|a2 [|a3 [|a4 l]]]]];
    first [ now destruct Hlen | now left | now right ].
Qed.

(** X14: an Import that returns without error was given an identifier of
    the form [a/b/c] with no further slash; it returns exactly one record,
    the one it worked on, whose [account_id] is [a] and whose identifier is
    [b/c], or empty when the route was not listed. *)
Theorem Import_success_inv (w w' : World Remote) ds :
  Import w = Returned (ds, None) w' ->
  exists a b c,
    Id (data w) = a +:+ "/" +:+ b +:+ "/" +:+ c
    /\ Count a "/"%char = 0 /\ Count b "/"%char = 0 /\ Count c "/"%char = 0
    /\ ds = [data w']
    /\ attrs (data w') !! "account_id" = Some (VString a)
    /\ (Id (data w') = b +:+ "/" +:+ c \/ Id (data w') = EmptyString).
Proof.
  intros H.
  destruct (Nat.eq_dec (length (SplitN (Id (data w)) "/"%char 4)) 3) as [E|E];
    [|destruct (Import_not_three w E) as [E'|E'];
      rewrite E' in H; discriminate].
  destruct (SplitN (Id (data w)) "/"%char 4)
    as [|a [|b [|c [|x l]]]] eqn:Hs; try discriminate.
  exists a, b, c.
  destruct (SplitN_three_inv _ _ _ _ Hs) as (Hid & Ha & Hb & Hc).
  rewrite (Import_three client w a b c Hs) in H.
  apply import_result_inv in H as [HR ->].
  repeat split; try assumption.
  - pose proof (Read_effect _ _ _ HR) as (_ & Hf & _).
    rewrite Hf by done. cbn. rewrite lookup_insert_ne by done.
    apply lookup_insert_eq.
  - destruct (Read_Id client _ _ _ HR) as [Hk|[Hk _]]; [left|right]; exact Hk.
Qed.

(** X15: an Import that returns, with or without error, has made no remote
    call at all or a single list call; it never creates, updates or deletes
    a route. *)
Theorem Import_only_lists (w w' : World Remote) res :
  Import w = Returned res w' ->
  calls w' = calls w \/ exists q, calls w' = (calls w ++ [CallList q])%list.
Proof.
  intros H.
  destruct (Nat.eq_dec (length (SplitN (Id (data w)) "/"%char 4)) 3) as [E|E].
  - destruct (SplitN (Id (data w)) "/"%char 4)
      as [|a [|b [|c [|x l]]]] eqn:Hs; try discriminate.
    rewrite (Import_three client w a b c Hs) in H. right.
    destruct (Read _) as [diags w1|p w1] eqn:HR; [|discriminate].
    apply Read_effect in HR as (_ & _ & q & Hq). exists q.
    destruct diags; injection H as <- <-; exact Hq.
  - destruct (Import_not_three w E) as [E'|E']; rewrite E' in H;
      [|discriminate].
    injection H as <- <-. now left.
Qed.

(** X16: importing [a/b/c] for a route the remote does not list returns the
    record without error, with an empty identifier, [account_id] set to [a]
    and [network] to [b/c]; the absence is not reported as a failure. *)
Theorem Import_of_missing_route (w : World Remote) a b c v rm :
  SplitN (Id (data w)) "/"%char 4 = [a; b; c] ->
  Get (data w) "virtual_network_id" = VString v ->
  ListTunnelRoutes client (listQuery a (b +:+ "/" +:+ c) v) (remote w)
  = (rm, Ok []) ->
  exists w',
    Import w = Returned ([data w'], None) w'
    /\ Id (data w') = EmptyString
    /\ attrs (data w') !! "account_id" = Some (VString a)
    /\ attrs (data w') !! "network" = Some (VString (b +:+ "/" +:+ c)).
Proof.
  intros Hs Hv Hl. eexists. split.
  - rewrite (Import_three client w a b c Hs).
    rewrite (Read_unfold client
               (with_data (imported a b c (data w)) w)
               a (slash_join b c) v rm (Ok [])); try reflexivity.
    + cbn [data with_data]. unfold imported.
      rewrite Get_SetString_ne by done. apply Get_SetString_eq.
    + cbn [data with_data]. unfold imported. apply Get_SetString_eq.
    + cbn [data with_data]. unfold imported.
      rewrite !Get_SetString_ne by done. exact Hv.
    + exact Hl.
  - cbn. split; [reflexivity|]. split.
    + rewrite lookup_insert_ne by done. apply lookup_insert_eq.
    + apply lookup_insert_eq.
Qed.

(** X17: importing [a/b/c] into a record without virtual network id, for a
    route the remote lists, returns the record with identifier [b/c],
    [account_id] [a], and [network] and [tunnel_id] taken from the listed
    route; the route's virtual network id is not recorded. *)
Theorem Import_of_listed_route (w : World Remote) a b c rm r rest :
  SplitN (Id (data w)) "/"%char 4 = [a; b; c] ->
  attrs (data w) !! "virtual_network_id" = None ->
  ListTunnelRoutes client (listQuery a (b +:+ "/" +:+ c) EmptyString) (remote w)
  = (rm, Ok (r :: rest)) ->
  exists w',
    Import w = Returned ([data w'], None) w'
    /\ Id (data w') = b +:+ "/" +:+ c
    /\ attrs (data w') !! "account_id" = Some (VString a)
    /\ attrs (data w') !! "network" = Some (VString (TunnelRoute.Network r))
    /\ attrs (data w') !! "tunnel_id" = Some (VString (TunnelRoute.TunnelID r))
    /\ attrs (data w') !! "virtual_network_id" = None.
Proof.
  intros Hs Hv Hl. eexists. split.
  - rewrite (Import_three client w a b c Hs).
    rewrite (Read_unfold client
               (with_data (imported a b c (data w)) w)
               a (slash_join b c) EmptyString rm (Ok (r :: rest)));
      try reflexivity.
    + cbn [data with_data]. unfold imported.
      rewrite Get_SetString_ne by done. apply Get_SetString_eq.
    + cbn [data with_data]. unfold imported. apply Get_SetString_eq.
    + cbn [data with_data]. unfold imported.
      rewrite !Get_SetString_ne by done. unfold Get. cbn [attrs SetId].
      now rewrite Hv.
    + exact Hl.
  - cbn [data with_data after_call]. split; [apply Id_write_back|].
    repeat split; rewrite attrs_write_back; repeat case_decide;
      try solve [intuition (try discriminate; congruence)];
      unfold imported; cbn; rewrite ?lookup_insert_ne by done;
      first [apply lookup_insert_eq | exact Hv].
Qed.

(** ** The fields stay strings *)

Lemma Read_writes_strings (w w' : World Remote) diags :
  Read w = Returned diags w' ->
  forall key,
    attrs (data w') !! key = attrs (data w) !! key
    \/ exists s, attrs (data w') !! key = Some (VString s).
Proof.
  intros H key.
  destruct (Read_returns_inv client _ _ _ H) as (a & n & v & Ha & Hn & Hv).
  destruct (Read_closed w a n v Ha Hn Hv) as (rm & listed & _ & E).
  rewrite E in H.
  destruct listed as [[|r rest]|err]; injection H as <- <-;
    try (now left).
  cbn [data with_data]. rewrite attrs_write_back.
  repeat case_decide; eauto.
Qed.

Lemma schema_typed_step (d d' : ResourceData) :
  (forall key,
     attrs d' !! key = attrs d !! key
     \/ exists s, attrs d' !! key = Some (VString s)) ->
  schema_typed d -> schema_typed d'.
Proof.
  intros Hstep Hty key Hkey. destruct (Hstep key) as [E|[s E]].
  - destruct (Hty key Hkey) as [s Hs]. exists s. rewrite <- Hs.
    now apply Get_congr.
  - exists s. unfold Get. now rewrite E.
Qed.

(** X18: each handler that returns leaves every schema field readable as a
    string if it found them so; hence on such a record any sequence of Read,
    Create, Update and Delete runs without a failed type assertion. *)
Theorem handlers_keep_fields_strings (w w' : World Remote) diags :
  schema_typed (data w) ->
  Read w = Returned diags w' \/ Create w = Returned diags w'
  \/ Update w = Returned diags w' \/ Delete w = Returned diags w' ->
  schema_typed (data w').
Proof.
  intros Hty [H|[H|[H|H]]].
  - exact (schema_typed_step _ _ (Read_writes_strings _ _ _ H) Hty).
  - destruct (Create_returns_inv _ _ _ H) as (a & t & n & v & Hv & Ha & Ht & Hn).
    destruct (Create_closed w a t n v Hv Ha Ht Hn) as (rm & created & _ & E).
    rewrite E in H. cbv zeta in H. destruct created as [r|err].
    + exact (schema_typed_step _ _ (Read_writes_strings _ _ _ H) Hty).
    + injection H as <- <-. exact Hty.
  - destruct (Update_returns_inv _ _ _ H) as (a & t & n & v & Ha & Ht & Hn & Hv).
    destruct (Update_closed w a t n v Ha Ht Hn Hv) as (rm & updated & _ & E).
    rewrite E in H. cbv zeta in H. destruct updated as [r|err].
    + exact (schema_typed_step _ _ (Read_writes_strings _ _ _ H) Hty).
    + injection H as <- <-. exact Hty.
  - apply Delete_effect in H as (_ & ->). exact Hty.
Qed.

End Coverage.

(** * The handlers as a whole, on concrete inputs *)

(** A record built from string fields is schema-typed. *)
Lemma record_typed id fields : schema_typed (record id fields).
Proof.
  induction fields as [|[k s] fields IH]; intros key Hkey.
  - exists EmptyString. unfold Get. cbn. rewrite lookup_empty, Hkey.
    reflexivity.
  - cbn [record fold_right fst snd].
    change (fold_right (fun kv d => SetString kv.1 kv.2 d) (importing id) fields)
      with (record id fields).
    destruct (decide (k = key)) as [->|Hne].
    + exists s. apply Get_SetString_eq.
    + rewrite (Get_SetString_ne _ _ _ _ Hne). exact (IH key Hkey).
Qed.

Lemma Read_list_failure_witness :
  exists e w',
    resourceCloudflareTunnelRouteRead failingClient (world0 stored)
    = Returned [e] w'
    /\ e = Errorf "failed to fetch Tunnel Route: %w" [ArgW unavailable]
    /\ Unwrap e = Some unavailable
    /\ data w' = stored
    /\ remote w' = tt
    /\ calls w' = [CallList (listQuery "acct1" "192.168.0.0/26" EmptyString)].
Proof.
  apply (Read_list_failure failingClient (world0 stored)
           "acct1" "192.168.0.0/26" EmptyString tt unavailable); reflexivity.
Defined.

Lemma Read_makes_one_exact_match_query_witness :
  exists q,
    calls stored_read = [CallList q]
    /\ Get stored "account_id" = VString (TunnelRoutesListParams.AccountID q)
    /\ Get stored "network" = VString (TunnelRoutesListParams.NetworkSubset q)
    /\ TunnelRoutesListParams.NetworkSuperset q
       = TunnelRoutesListParams.NetworkSubset q
    /\ Get stored "virtual_network_id"
       = VString (TunnelRoutesListParams.VirtualNetworkID q)
    /\ TunnelRoutesListParams.IsDeleted q = Some false.
Proof.
  apply (Read_makes_one_exact_match_query echoClient (world0 stored)
           stored_read []).
  reflexivity.
Defined.

Lemma handlers_return_on_typed_record_witness :
  (exists diags w',
     resourceCloudflareTunnelRouteRead echoClient (world0 desired)
     = Returned diags w')
  /\ (exists diags w',
        resourceCloudflareTunnelRouteCreate echoClient (world0 desired)
        = Returned diags w')
  /\ (exists diags w',
        resourceCloudflareTunnelRouteUpdate echoClient (world0 desired)
        = Returned diags w')
  /\ (exists diags w',
        resourceCloudflareTunnelRouteDelete echoClient (world0 desired)
        = Returned diags w').
Proof.
  apply (handlers_return_on_typed_record echoClient (world0 desired)).
  apply record_typed.
Defined.

Lemma account_id_is_never_rewritten_witness :
  attrs (data desired_created) !! "account_id" = attrs desired !! "account_id".
Proof.
  apply (account_id_is_never_rewritten echoClient (world0 desired)
           desired_created []).
  right; left. vm_compute. reflexivity.
Defined.

Lemma diagnostics_wrap_the_remote_error_witness :
  [Errorf "error deleting Tunnel Route for Network %q: %w"
     [ArgQ "192.168.0.0/26"; ArgW unavailable]] = []
  \/ exists e cause c rm,
       [Errorf "error deleting Tunnel Route for Network %q: %w"
          [ArgQ "192.168.0.0/26"; ArgW unavailable]] = [e]
       /\ Unwrap e = Some cause
       /\ run_call failingClient c rm = (tt, Some cause)
       /\ ((rm = tt
            /\ [CallDelete (deleteRequest "acct1" "192.168.0.0/26" EmptyString)]
               = [c])
           \/ exists c0,
                run_call failingClient c0 tt = (rm, None)
                /\ [CallDelete (deleteRequest "acct1" "192.168.0.0/26"
                                  EmptyString)]
                   = [c0; c]).
Proof.
  apply (diagnostics_wrap_the_remote_error failingClient (world0 stored)
           {| data := stored; remote := tt;
              calls := [CallDelete (deleteRequest "acct1" "192.168.0.0/26"
                                      EmptyString)] |}).
  right; right; right. vm_compute. reflexivity.
Defined.

Lemma Delete_sends_key_and_writes_nothing_witness :
  exists diags w',
    resourceCloudflareTunnelRouteDelete failingClient (world0 stored)
    = Returned diags w'
    /\ data w' = stored
    /\ remote w' = tt
    /\ calls w' = [CallDelete (deleteRequest "acct1" "192.168.0.0/26"
                                 EmptyString)]
    /\ (Some unavailable = None -> diags = [])
    /\ (forall err, Some unavailable = Some err ->
          diags = [Errorf "error deleting Tunnel Route for Network %q: %w"
                     [ArgQ "192.168.0.0/26"; ArgW err]]).
Proof.
  apply (Delete_sends_key_and_writes_nothing failingClient (world0 stored)
           "acct1" "192.168.0.0/26" EmptyString tt (Some unavailable));
    reflexivity.
Defined.

Lemma Create_failure_leaves_record_witness :
  exists e w',
    resourceCloudflareTunnelRouteCreate failingClient (world0 desired)
    = Returned [e] w'
    /\ e = Errorf "error creating Tunnel Route for Network %q: %w"
             [ArgQ "10.1.2.3/8"; ArgW unavailable]
    /\ Unwrap e = Some unavailable
    /\ data w' = desired
    /\ calls w' = [CallCreate (createRequest "acct1" "tun1" "10.1.2.3/8"
                                 EmptyString "vnet1")].
Proof.
  apply (Create_failure_leaves_record failingClient (world0 desired)
           "acct1" "tun1" "10.1.2.3/8" "vnet1" tt unavailable); reflexivity.
Defined.

Lemma Create_and_Update_send_same_fields_witness :
  exists pc pu lc lu,
    calls desired_created = CallCreate pc :: lc
    /\ calls desired_updated = CallUpdate pu :: lu
    /\ TunnelRoutesCreateParams.AccountID pc
       = TunnelRoutesUpdateParams.AccountID pu
    /\ TunnelRoutesCreateParams.TunnelID pc
       = TunnelRoutesUpdateParams.TunnelID pu
    /\ TunnelRoutesCreateParams.Network pc
       = TunnelRoutesUpdateParams.Network pu
    /\ TunnelRoutesCreateParams.VirtualNetworkID pc
       = TunnelRoutesUpdateParams.VirtualNetworkID pu
    /\ TunnelRoutesCreateParams.Comment pc
       = TunnelRoutesUpdateParams.Comment pu
    /\ TunnelRoutesCreateParams.Comment pc = EmptyString.
Proof.
  apply (Create_and_Update_send_same_fields echoClient (world0 desired)
           desired_created desired_updated [] []);
    vm_compute; reflexivity.
Defined.

Lemma Create_then_found_witness :
  exists w',
    resourceCloudflareTunnelRouteCreate echoClient (world0 desired)
    = Returned [] w'
    /\ Id (data w') = "10.0.0.0/8/vnet1"
    /\ attrs (data w') !! "network" = Some (VString "10.1.2.3/8")
    /\ attrs (data w') !! "tunnel_id" = Some (VString "tun1")
    /\ remote w' = tt
    /\ calls w' = [CallCreate (createRequest "acct1" "tun1" "10.1.2.3/8"
                                 EmptyString "vnet1");
                   CallList (listQuery "acct1" "10.1.2.3/8" "vnet1")].
Proof.
  apply (Create_then_found echoClient (world0 desired)
           "acct1" "tun1" "10.1.2.3/8" "vnet1" tt
           (route "10.0.0.0/8" "tun1" EmptyString "vnet-default") tt
           (route "10.1.2.3/8" "tun1" EmptyString "vnet-default") []);
    reflexivity.
Defined.

Lemma Create_then_vanished_witness :
  exists w',
    resourceCloudflareTunnelRouteCreate vanishingClient (world0 desired)
    = Returned [] w'
    /\ Id (data w') = EmptyString
    /\ attrs (data w') = attrs desired.
Proof.
  apply (Create_then_vanished vanishingClient (world0 desired)
           "acct1" "tun1" "10.1.2.3/8" "vnet1" tt
           (route "10.0.0.0/8" "tun1" EmptyString "vnet-default") tt);
    reflexivity.
Defined.

Lemma Update_keeps_or_clears_identifier_witness :
  Id (data desired_updated) = Id desired
  \/ (Id (data desired_updated) = EmptyString /\ @nil error = []).
Proof.
  apply (Update_keeps_or_clears_identifier echoClient (world0 desired)
           desired_updated []).
  vm_compute. reflexivity.
Defined.

Lemma SplitN_three_pieces_iff_witness :
  SplitN "acct1/192.168.0.0/26" "/"%char 4 = ["acct1"; "192.168.0.0"; "26"].
Proof.
  apply (proj2 (SplitN_three_pieces_iff "acct1/192.168.0.0/26"
                  "acct1" "192.168.0.0" "26")).
  repeat split.
Defined.

Lemma Read_twice_when_route_echoes_witness :
  exists w1 w2,
    resourceCloudflareTunnelRouteRead echoClient (world0 stored) = Returned [] w1
    /\ resourceCloudflareTunnelRouteRead echoClient w1 = Returned [] w2
    /\ data w2 = data w1
    /\ calls w2 = [CallList (listQuery "acct1" "192.168.0.0/26" EmptyString);
                   CallList (listQuery "acct1" "192.168.0.0/26" EmptyString)].
Proof.
  apply (Read_twice_when_route_echoes echoClient (world0 stored)
           "acct1" "192.168.0.0/26" EmptyString tt
           (route "192.168.0.0/26" "tun1" EmptyString "vnet-default") []);
    try reflexivity.
  intros H. now destruct H.
Defined.

Lemma Import_success_inv_witness :
  exists a b c,
    "acct1/192.168.0.0/26" = a +:+ "/" +:+ b +:+ "/" +:+ c
    /\ Count a "/"%char = 0 /\ Count b "/"%char = 0 /\ Count c "/"%char = 0
    /\ [data imported_world] = [data imported_world]
    /\ attrs (data imported_world) !! "account_id" = Some (VString a)
    /\ (Id (data imported_world) = b +:+ "/" +:+ c
        \/ Id (data imported_world) = EmptyString).
Proof.
  apply (Import_success_inv echoClient
           (world0 (importing "acct1/192.168.0.0/26")) imported_world
           [data imported_world]).
  vm_compute. reflexivity.
Defined.

Lemma Import_only_lists_witness :
  calls imported_world = []
  \/ exists q, calls imported_world = [CallList q].
Proof.
  apply (Import_only_lists echoClient
           (world0 (importing "acct1/192.168.0.0/26")) imported_world
           ([data imported_world], None)).
  vm_compute. reflexivity.
Defined.

Lemma Import_of_missing_route_witness :
  exists w',
    resourceCloudflareTunnelRouteImport emptyClient
      (world0 (importing "acct1/192.168.0.0/26"))
    = Returned ([data w'], None) w'
    /\ Id (data w') = EmptyString
    /\ attrs (data w') !! "account_id" = Some (VString "acct1")
    /\ attrs (data w') !! "network" = Some (VString "192.168.0.0/26").
Proof.
  apply (Import_of_missing_route emptyClient
           (world0 (importing "acct1/192.168.0.0/26"))
           "acct1" "192.168.0.0" "26" EmptyString tt); reflexivity.
Defined.

Lemma Import_of_listed_route_witness :
  exists w',
    resourceCloudflareTunnelRouteImport echoClient
      (world0 (importing "acct1/192.168.0.0/26"))
    = Returned ([data w'], None) w'
    /\ Id (data w') = "192.168.0.0/26"
    /\ attrs (data w') !! "account_id" = Some (VString "acct1")
    /\ attrs (data w') !! "network" = Some (VString "192.168.0.0/26")
    /\ attrs (data w') !! "tunnel_id" = Some (VString "tun1")
    /\ attrs (data w') !! "virtual_network_id" = None.
Proof.
  apply (Import_of_listed_route echoClient
           (world0 (importing "acct1/192.168.0.0/26"))
           "acct1" "192.168.0.0" "26" tt
           (route "192.168.0.0/26" "tun1" EmptyString "vnet-default") []);
    reflexivity.
Defined.

Lemma handlers_keep_fields_strings_witness :
  schema_typed (data stored_read).
Proof.
  apply (handlers_keep_fields_strings echoClient (world0 stored)
           stored_read []).
  - apply record_typed.
  - left. reflexivity.
Defined.
